(** * msocks sessions: port table, read loop and DNS tunnel

    A shallow embedding of [msocks/session.go].  A [Session] is a record
    that is threaded through every method; a method is a function from
    the session to an [outcome], which says whether the call returned,
    blocked for ever on the port lock, or panicked, and with which
    session.

    What lies outside [session.go] (the DNS library, [net.ParseIP], the
    frame codec, the streams behind a [FrameSender], the carrier) is
    gathered in a [World] record and in the scripted fields of the
    [Carrier]. *)

From Stdlib Require Import ZArith Lia List Permutation Sorted.
From Stdlib Require Import Init.Byte.
From stdpp Require Import gmap strings list.

Open Scope Z_scope.

(** ** Data *)

(** [uint16] values are integers in [0, 65536); additions wrap. *)
Definition U16 : Z := 65536.
Definition u16 (z : Z) : Z := z mod U16.
Definition is_u16 (z : Z) : Prop := 0 <= z < U16.

Definition IP := list byte.

(** Error values returned by the methods of this file. *)
Inductive error :=
  | ErrIdExist
  | ErrStreamNotExist
  | ErrUnexpectedPkg
  | ErrDnsMsgIllegal
  | ErrNoDnsServer
  | ErrRunOutOfStreamId            (* errors.New("run out of stream id") *)
  | ErrPortNotExist (streamid : Z) (* fmt.Errorf("streamid(%d) not exist.") *)
  | ErrShortWrite                  (* io.ErrShortWrite *)
  | ErrTimeout                     (* RecvWithTimeout gave up *)
  | ErrStatus                      (* CheckAndSetStatus from a wrong state *)
  | ErrOther (tag : Z).            (* an error of the carrier or of a library *)

(** Result codes carried by a RESULT frame. *)
Definition ERR_NONE : Z := 0.
Definition ERR_IDEXIST : Z := 1.
Definition ERR_CONNFAILED : Z := 2.

Inductive Frame :=
  | FrameSyn (Streamid : Z) (Network Address : string)
  | FrameResult (Streamid : Z) (Errno : Z)
  | FrameData (Streamid : Z) (Data : list byte)
  | FrameWnd (Streamid : Z) (Window : Z)
  | FrameFin (Streamid : Z)
  | FrameRst (Streamid : Z)
  | FramePing (Streamid : Z)
  | FrameDns (Streamid : Z) (Data : list byte)
  | FrameSpam (Streamid : Z) (Data : list byte).

Definition GetStreamid (f : Frame) : Z :=
  match f with
  | FrameSyn i _ _ | FrameResult i _ | FrameData i _ | FrameWnd i _
  | FrameFin i | FrameRst i | FramePing i | FrameDns i _ | FrameSpam i _ => i
  end.

Definition NewFrameResult (streamid errno : Z) : Frame := FrameResult streamid errno.
Definition NewFrameDns (streamid : Z) (data : list byte) : Frame := FrameDns streamid data.

(** The five kinds the read loop hands to [sendFrameInChan]. *)
Definition is_stream_frame (f : Frame) : bool :=
  match f with
  | FrameResult _ _ | FrameData _ _ | FrameWnd _ _ | FrameFin _ | FrameRst _ => true
  | _ => false
  end.

Inductive Status :=
  | ST_UNKNOWN | ST_SYN_RECV | ST_SYN_SENT | ST_EST
  | ST_FIN_RECV | ST_FIN_SENT | ST_CLOSED.

Global Instance Status_eq_dec : EqDecision Status.
Proof. solve_decision. Defined.

(** A stream.  [session.go] reads and writes the field [streamid] and
    passes [network] and [address] to [NewConn]. *)
Record Conn := mkConn {
  streamid : Z;
  network : string;
  address : string;
  status : Status;
}.

(** Modelled from the spec: [NewConn] lives in conn.go, which is not part
    of the sources; a new stream starts in state UNKNOWN. *)
Definition NewConn (id : Z) (net addr : string) : Conn :=
  mkConn id net addr ST_UNKNOWN.

(** Modelled from the spec: [CheckAndSetStatus] lives in conn.go; it moves
    the stream from [old] to [new] and reports an error from any other
    state. *)
Definition CheckAndSetStatus (old new : Status) (c : Conn) : Conn * option error :=
  if decide (status c = old)
  then (mkConn (streamid c) (network c) (address c) new, None)
  else (c, Some ErrStatus).

(** The values a port can hold: a stream, the one-shot channel of a DNS
    lookup (with its buffer size), or a nil interface value. *)
Inductive FrameSender :=
  | FConn (c : Conn)
  | FChan (size : Z)
  | FNil.

Definition CreateChanFrameSender (size : Z) : FrameSender := FChan size.

(** ** DNS messages (github.com/miekg/dns) *)

Record Question := mkQuestion { Name : string; Qtype : Z }.

Inductive RR :=
  | RR_A (A : IP)
  | RR_AAAA (AAAA : IP)
  | RR_other (rrtype : Z).

Record Msg := mkMsg {
  Id : Z;
  Response : bool;
  RecursionDesired : bool;
  Questions : list Question;
  Answer : list RR;
}.

Definition TypeA : Z := 1.

(** ** The carrier and the session *)

(** What the next [Conn.Write] will do: take everything, fail, or stop
    after [n] bytes. *)
Inductive wres := WFull | WError | WShort (n : nat).

Record Carrier := mkCarrier {
  sent : list (list byte);   (* byte blocks written so far, oldest first *)
  wscript : list wres;       (* the next writes; when empty they succeed *)
  conn_closed : bool;
}.

(** [sync.RWMutex] as one goroutine sees it. *)
Inductive RWMutex := Unlocked | WLocked | RLocked (readers : nat).

(** Goroutines started with [go]; they run outside this model. *)
Inductive Task :=
  | TCloseFrame (fs : FrameSender)
  | TDial (c : Conn).

Record Session := mkSession {
  conn : Carrier;
  closed : bool;
  plock : RWMutex;
  next_id : Z;
  ports : gmap Z FrameSender;
  delivered : list (Z * Frame);  (* frames handed to a FrameSender *)
  spawned : list Task;
}.

Definition set_conn (c : Carrier) (s : Session) : Session :=
  mkSession c (closed s) (plock s) (next_id s) (ports s) (delivered s) (spawned s).
Definition set_closed (b : bool) (s : Session) : Session :=
  mkSession (conn s) b (plock s) (next_id s) (ports s) (delivered s) (spawned s).
Definition set_plock (l : RWMutex) (s : Session) : Session :=
  mkSession (conn s) (closed s) l (next_id s) (ports s) (delivered s) (spawned s).
Definition set_next_id (n : Z) (s : Session) : Session :=
  mkSession (conn s) (closed s) (plock s) n (ports s) (delivered s) (spawned s).
Definition set_ports (p : gmap Z FrameSender) (s : Session) : Session :=
  mkSession (conn s) (closed s) (plock s) (next_id s) p (delivered s) (spawned s).
Definition set_delivered (d : list (Z * Frame)) (s : Session) : Session :=
  mkSession (conn s) (closed s) (plock s) (next_id s) (ports s) d (spawned s).
Definition set_spawned (t : list Task) (s : Session) : Session :=
  mkSession (conn s) (closed s) (plock s) (next_id s) (ports s) (delivered s) t.

Definition NewCarrier (script : list wres) : Carrier := mkCarrier [] script false.

Definition NewSession (c : Carrier) (next_id : Z) : Session :=
  mkSession c false Unlocked next_id ∅ [] [].

(** ** Outcomes and the session monad *)

Inductive outcome (A : Type) :=
  | Ret (a : A) (s : Session)   (* the call returned *)
  | Block                       (* it waits for ever on [plock] *)
  | Crash (s : Session)         (* a run-time panic, with the session then *)
  | NoFuel.                     (* the model's loop bound was too small *)
Arguments Ret {A} a s.
Arguments Block {A}.
Arguments Crash {A} s.
Arguments NoFuel {A}.

Definition M (A : Type) : Type := Session -> outcome A.

Definition ret {A} (a : A) : M A := fun s => Ret a s.
Definition bind {A B} (m : M A) (k : A -> M B) : M B :=
  fun s => match m s with
           | Ret a s' => k a s'
           | Block => Block
           | Crash s' => Crash s'
           | NoFuel => NoFuel
           end.
Definition gets {A} (f : Session -> A) : M A := fun s => Ret (f s) s.
Definition modify (f : Session -> Session) : M unit := fun s => Ret tt (f s).
Definition panic {A} : M A := fun s => Crash s.

(** [defer d] in front of [body]: [d] runs when [body] returns and when
    it panics, after which the panic goes on; while [body] blocks, [d]
    does not run. *)
Definition with_defer {A} (d : M unit) (body : M A) : M A := fun s =>
  match body s with
  | Ret a s' =>
      match d s' with
      | Ret _ s'' => Ret a s''
      | Block => Block
      | Crash s'' => Crash s''
      | NoFuel => NoFuel
      end
  | Crash s' =>
      match d s' with
      | Ret _ s'' => Crash s''
      | Block => Block
      | Crash s'' => Crash s''
      | NoFuel => NoFuel
      end
  | Block => Block
  | NoFuel => NoFuel
  end.

Declare Scope go_scope.
Delimit Scope go_scope with go.
Notation "x <- m ;; k" := (bind m (fun x => k))
  (at level 100, m at next level, right associativity) : go_scope.
Notation "m ;; k" := (bind m (fun _ => k))
  (at level 100, right associativity) : go_scope.
Open Scope go_scope.

(** *** The port lock *)

Definition Lock : M unit := fun s =>
  match plock s with
  | Unlocked => Ret tt (set_plock WLocked s)
  | _ => Block
  end.

Definition Unlock : M unit := fun s =>
  match plock s with
  | WLocked => Ret tt (set_plock Unlocked s)
  | _ => Crash s   (* unlock of an unlocked mutex *)
  end.

Definition RLock : M unit := fun s =>
  match plock s with
  | Unlocked => Ret tt (set_plock (RLocked 1) s)
  | RLocked n => Ret tt (set_plock (RLocked (S n)) s)
  | WLocked => Block
  end.

Definition RUnlock : M unit := fun s =>
  match plock s with
  | RLocked (S O) => Ret tt (set_plock Unlocked s)
  | RLocked (S n) => Ret tt (set_plock (RLocked n) s)
  | _ => Crash s
  end.

(** ** Port table *)

Definition GetSize : M Z :=
  RLock ;;
  n <- gets (fun s => Z.of_nat (size (ports s))) ;;
  RUnlock ;;
  ret n.

(** The loop of [PutIntoNextId]: while the slot at [cur] is taken, step to
    the next id; give up when the scan is back at [startid]. *)
Inductive scan_result := Free (id : Z) | Wrapped | ScanNoFuel.

Fixpoint scan_ports (fuel : nat) (p : gmap Z FrameSender) (startid cur : Z)
  : scan_result :=
  match fuel with
  | O => ScanNoFuel
  | S fuel' =>
      match p !! cur with
      | None => Free cur
      | Some _ =>
          let next := u16 (cur + 1) in
          if decide (next = startid) then Wrapped
          else scan_ports fuel' p startid next
      end
  end.

Definition PutIntoNextId (fs : FrameSender) : M (Z * option error) :=
  Lock ;;
  startid <- gets next_id ;;
  p <- gets ports ;;
  match scan_ports (Z.to_nat U16) p startid startid with
  | ScanNoFuel => fun _ => NoFuel
  | Wrapped =>
      (* next_id is back at startid; returns with plock still held *)
      ret (0, Some ErrRunOutOfStreamId)
  | Free id =>
      modify (set_next_id (u16 (id + 2))) ;;
      modify (set_ports (<[id := fs]> p)) ;;
      Unlock ;;
      ret (id, None)
  end.

Definition PutIntoId (id : Z) (fs : FrameSender) : M (option error) :=
  Lock ;;
  p <- gets ports ;;
  match p !! id with
  | Some _ => ret (Some ErrIdExist)        (* returns with plock still held *)
  | None =>
      modify (set_ports (<[id := fs]> p)) ;;
      Unlock ;;
      ret None
  end.

Definition RemovePort (streamid : Z) : M (option error) :=
  Lock ;;
  p <- gets ports ;;
  match p !! streamid with
  | None => ret (Some (ErrPortNotExist streamid))  (* plock still held *)
  | Some _ =>
      modify (set_ports (delete streamid p)) ;;
      Unlock ;;
      ret None
  end.

(** ** The world outside session.go *)

Record World := mkWorld {
  ParseIP : string -> option IP;             (* net.ParseIP; None is nil *)
  Fqdn : string -> string;                   (* dns.Fqdn *)
  dns_Id : Z;                                (* dns.Id(), a random id *)
  Pack : Msg -> option (list byte);          (* Pack of dns.Msg *)
  Unpack : list byte -> option Msg;          (* Unpack of dns.Msg *)
  (* sutils.DefaultLookuper when it is a *sutils.DnsLookup, and its Exchange *)
  DefaultLookuper : option (Msg -> option Msg);
  Packed : Frame -> option (list byte);      (* Frame.Packed, frame.go *)
  (* FrameSender.SendFrame of the stream or channel behind a port; it has
     the session in its hands: a stream may write to the carrier or take
     itself out of the port table *)
  fs_SendFrame : FrameSender -> Frame -> M (option error);
  Readcnt_Close : option error;              (* SpeedCounter.Close *)
  Writecnt_Close : option error;
  DEBUGDNS : bool;
}.

Inductive ReadResult :=
  | ReadOk (f : Frame)
  | ReadEOF
  | ReadErr (e : error).

(** How [Run] stands once the frames read so far are used up. *)
Inductive RunState :=
  | Reading    (* the loop waits in ReadFrame *)
  | Returned.  (* the loop returned and the deferred Close has run *)

Section Methods.

Context (W : World).

(** *** Writing to the carrier *)

Definition Conn_Write (b : list byte) : M (nat * option error) := fun s =>
  let c := conn s in
  if conn_closed c then Ret (O, Some (ErrOther 0)) s
  else
    match wscript c with
    | [] | WFull :: _ =>
        Ret (length b, None)
            (set_conn (mkCarrier (sent c ++ [b]) (tail (wscript c)) false) s)
    | WError :: rest =>
        Ret (O, Some (ErrOther 1)) (set_conn (mkCarrier (sent c) rest false) s)
    | WShort n :: rest =>
        let n' := Nat.min n (length b) in
        Ret (n', None) (set_conn (mkCarrier (sent c ++ [take n' b]) rest false) s)
    end.

Definition Conn_Close : M unit :=
  modify (fun s => set_conn (mkCarrier (sent (conn s)) (wscript (conn s)) true) s).

(** [wlock] is taken and released around the one [Write], with no return
    in between, so it is free between calls and is left out. *)
Definition SendFrame (f : Frame) : M (option error) :=
  match Packed W f with
  | None => ret (Some (ErrOther 2))
  | Some b =>
      w <- Conn_Write b ;;
      let '(n, err) := w in
      match err with
      | Some e => ret (Some e)
      | None =>
          if decide (n = length b) then ret None else ret (Some ErrShortWrite)
      end
  end.

(** *** Close *)

(** The loop over the ports: [go v.CloseFrame()] for each, which panics
    on a nil FrameSender. *)
Fixpoint close_ports (l : list FrameSender) : M unit :=
  match l with
  | [] => ret tt
  | FNil :: _ => panic
  | v :: l' =>
      modify (fun s => set_spawned (spawned s ++ [TCloseFrame v]) s) ;;
      close_ports l'
  end.

Definition Close : M (option error) :=
  with_defer Conn_Close
    match Readcnt_Close W with
    | Some e => ret (Some e)
    | None =>
        match Writecnt_Close W with
        | Some e => ret (Some e)
        | None =>
            RLock ;;
            with_defer RUnlock
              (p <- gets ports ;;
               close_ports (map_to_list p).*2 ;;
               modify (set_closed true) ;;
               ret None)
        end
    end.

Definition CloseFrame : M (option error) := Close.

(** *** Dispatch to a port *)

Definition sendFrameInChan (f : Frame) : M (option error) :=
  let streamid := GetStreamid f in
  RLock ;;
  c <- gets (fun s => ports s !! streamid) ;;
  RUnlock ;;
  match c with
  | None | Some FNil => ret (Some ErrStreamNotExist)
  | Some c =>
      modify (fun s => set_delivered (delivered s ++ [(streamid, f)]) s) ;;
      fs_SendFrame W c f
  end.

(** *** SYN *)

Definition on_syn (Streamid : Z) (Network Address : string) : M (option error) :=
  let c := NewConn Streamid Network Address in
  let '(c, err) := CheckAndSetStatus ST_UNKNOWN ST_SYN_RECV c in
  match err with
  | Some e => ret (Some e)
  | None =>
      err <- PutIntoId Streamid (FConn c) ;;
      match err with
      | Some _ =>
          let fb := NewFrameResult Streamid ERR_IDEXIST in
          err <- SendFrame fb ;;
          ret err
      | None =>
          (* go func() { dial the target, answer with RESULT, copy } *)
          modify (fun s => set_spawned (spawned s ++ [TDial c]) s) ;;
          ret None
      end
  end.

(** *** DNS *)

Definition MakeDnsFrame (host : string) (t : Z) (streamid : Z)
  : Msg * option Frame :=
  let req := mkMsg (dns_Id W) false true [mkQuestion (Fqdn W host) t] [] in
  match Pack W req with
  | None => (req, None)
  | Some b => (req, Some (NewFrameDns streamid b))
  end.

(** The loop over [res.Answer]: addresses of A and AAAA records are
    appended, other records are skipped. *)
Definition collect_addrs (answer : list RR) : list IP :=
  fold_left (fun addrs a =>
               match a with
               | RR_A ip => addrs ++ [ip]
               | RR_AAAA ip => addrs ++ [ip]
               | RR_other _ => addrs
               end) answer [].

(** [None] is the panic of [req.Question[0]] on an empty question list,
    reached only when DEBUGDNS is set. *)
Definition ParseDnsFrame (f : Frame) (req : Msg) : option (list IP * option error) :=
  match f with
  | FrameDns _ Data =>
      match Unpack W Data with
      | None => Some ([], Some ErrDnsMsgIllegal)
      | Some res =>
          if negb (Response res) || negb (Id res =? Id req)
          then Some ([], Some ErrDnsMsgIllegal)
          else
            if DEBUGDNS W && bool_decide (Questions req = [])
            then None
            else Some (collect_addrs (Answer res), None)
      end
  | _ => Some ([], Some ErrDnsMsgIllegal)
  end.

(** [recv] is what [cfs.RecvWithTimeout] yields: the frame the read loop
    put into the channel, or an error such as the timeout. *)
Definition LookupIP (host : string) (recv : Frame + error)
  : M (list IP * option error) :=
  match ParseIP W host with
  | Some ip => ret ([ip], None)
  | None =>
      let cfs := CreateChanFrameSender 0 in
      a <- PutIntoNextId cfs ;;
      let '(streamid, err) := a in
      match err with
      | Some e => ret ([], Some e)
      | None =>
          r <- (let '(req, freq) := MakeDnsFrame host TypeA streamid in
                match freq with
                | None => ret (Some ([], Some (ErrOther 3)))
                | Some freq =>
                    err <- SendFrame freq ;;
                    match err with
                    | Some e => ret (Some ([], Some e))
                    | None =>
                        match recv with
                        | inr e => ret (Some ([], Some e))
                        | inl fres => ret (ParseDnsFrame fres req)
                        end
                    end
                end) ;;
          (* deferred: s.RemovePort(streamid), its error only logged *)
          RemovePort streamid ;;
          match r with
          | Some res => ret res
          | None => panic
          end
      end
  end.

Definition on_dns (Streamid : Z) (Data : list byte) : M (option error) :=
  match Unpack W Data with
  | None => ret (Some ErrDnsMsgIllegal)
  | Some req =>
      if Response req then
        (* ignore send fail, maybe just timeout. *)
        sendFrameInChan (FrameDns Streamid Data)
      else
        match Questions req with
        | [] => panic   (* req.Question[0] *)
        | _ :: _ =>
            match DefaultLookuper W with
            | None => ret (Some ErrNoDnsServer)
            | Some Exchange =>
                match Exchange req with
                | None => ret None
                | Some res =>
                    match Pack W res with
                    | None => ret None
                    | Some b => SendFrame (NewFrameDns Streamid b)
                    end
                end
            end
        end
  end.

(** *** The read loop *)

(** One frame of the type switch in [Run]; [Some e] makes the loop return.
    The default case of the switch (ErrUnexpectedPkg) is for frame types
    other than the nine of [Frame]. *)
Definition dispatch (f : Frame) : M (option error) :=
  match f with
  | FrameResult _ _ | FrameData _ _ | FrameWnd _ _ | FrameFin _ | FrameRst _ =>
      sendFrameInChan f
  | FrameSyn i n a => on_syn i n a
  | FrameDns i d => on_dns i d
  | FramePing _ | FrameSpam _ _ => ret None
  end.

Fixpoint Run_loop (input : list ReadResult) : M RunState :=
  match input with
  | [] => ret Reading
  | ReadErr _ :: _ => ret Returned
  | ReadEOF :: _ => ret Returned
  | ReadOk f :: rest =>
      err <- dispatch f ;;
      match err with
      | Some _ => ret Returned
      | None => Run_loop rest
      end
  end.

(** [Run] on the frames the carrier delivers; [defer s.Close()] runs when
    the loop returns and when a frame makes it panic. *)
Definition Run (input : list ReadResult) : M RunState := fun s =>
  match Run_loop input s with
  | Ret Reading s' => Ret Reading s'
  | Ret Returned s' => bind Close (fun _ => ret Returned) s'
  | Crash s' => bind Close (fun _ => panic) s'
  | Block => Block
  | NoFuel => NoFuel
  end.

(** *** Listing the streams *)

Definition GetPorts : M (list Conn) :=
  RLock ;;
  p <- gets ports ;;
  let ports := fold_left (fun acc kv =>
                 match kv.2 with
                 | FConn c => acc ++ [c]
                 | _ => acc
                 end) (map_to_list p) [] in
  RUnlock ;;
  ret ports.

End Methods.

(** [ConnSlice.Less] *)
Definition Less (ci cj : Conn) : bool := streamid ci <? streamid cj.

(** [sort.Sort] of the Go library, here by insertion.  Go's sort is not
    stable; nothing below depends on the order of elements that [less]
    does not separate. *)
Fixpoint sort_insert {A} (less : A -> A -> bool) (x : A) (l : list A) : list A :=
  match l with
  | [] => [x]
  | y :: l' => if less y x then y :: sort_insert less x l' else x :: l
  end.

Definition sort_Sort {A} (less : A -> A -> bool) (l : list A) : list A :=
  fold_right (sort_insert less) [] l.

Definition GetSortedPorts : M (list Conn) :=
  ports <- GetPorts ;;
  ret (sort_Sort Less ports).

(** *** Dial *)

(** [SendSynAndWait] belongs to conn.go and is a parameter.  The stream
    [c] is one object, shared by the caller and the port table: the
    assignment to [c.streamid] after [PutIntoNextId] shows in the table. *)
Definition Dial (SendSynAndWait : Conn -> M (option error))
  (Network Address : string) : M (Conn * option error) :=
  let c := NewConn 0 Network Address in
  a <- PutIntoNextId (FConn c) ;;
  let '(id, err) := a in
  match err with
  | Some e => ret (c, Some e)
  | None =>
      let c := mkConn id (network c) (address c) (status c) in
      modify (fun s => set_ports (<[id := FConn c]> (ports s)) s) ;;
      err <- SendSynAndWait c ;;
      match err with
      | Some e => ret (c, Some e)
      | None => ret (c, None)
      end
  end.

(** * Definitions used to state the properties *)

(** Every 16-bit id has a port. *)
Definition all_taken (p : gmap Z FrameSender) : Prop :=
  forall i, is_u16 i -> is_Some (p !! i).

(** The id the scan that started at [startid] looks at after [j] steps. *)
Definition probe (startid j : Z) : Z := u16 (startid + j).

(** The ids looked at in the steps [a], ..., [b - 1] all have a port. *)
Definition taken_between (p : gmap Z FrameSender) (startid a b : Z) : Prop :=
  forall i, a <= i < b -> is_Some (p !! probe startid i).

Definition outcome_map {A} (f : Session -> Session) (o : outcome A) : outcome A :=
  match o with
  | Ret a s => Ret a (f s)
  | Block => Block
  | Crash s => Crash (f s)
  | NoFuel => NoFuel
  end.

(** ** A sample world

    It serves to run the methods on concrete inputs.  DNS messages are
    coded on two bytes, the id and then 1 for a response or 0 for a
    query; frames are packed with the five-byte header (kind, length,
    streamid) in front of the payload. *)

Definition byte_of_Z (z : Z) : byte :=
  default x00 (Byte.of_N (Z.to_N (z mod 256))).

Definition be16 (z : Z) : list byte := [byte_of_Z (z / 256); byte_of_Z z].

Definition sample_payload (f : Frame) : Z * list byte :=
  match f with
  | FrameSyn _ n a =>
      (0, String.list_byte_of_string n ++ [x00] ++ String.list_byte_of_string a ++ [x00])
  | FrameResult _ e => (1, [byte_of_Z e])
  | FrameData _ d => (2, d)
  | FrameWnd _ w => (3, be16 (w / 65536) ++ be16 w)
  | FrameFin _ => (4, [])
  | FrameRst _ => (5, [])
  | FramePing _ => (6, [])
  | FrameDns _ d => (7, d)
  | FrameSpam _ d => (8, d)
  end.

Definition sample_Packed (f : Frame) : option (list byte) :=
  let '(kind, payload) := sample_payload f in
  Some (byte_of_Z kind :: be16 (Z.of_nat (length payload))
          ++ be16 (GetStreamid f) ++ payload).

Definition sample_answer : list RR :=
  [RR_other 5; RR_A [x01; x02; x03; x04]; RR_other 46;
   RR_AAAA [x20; x01; x0d; xb8; x00; x00; x00; x00;
            x00; x00; x00; x00; x00; x00; x00; x01]].

Definition sample_Unpack (b : list byte) : option Msg :=
  match b with
  | [i; r] =>
      let resp := Byte.eqb r x01 in
      Some (mkMsg (Z.of_N (Byte.to_N i)) resp true
                  [mkQuestion "example.test." TypeA]
                  (if resp then sample_answer else []))
  | _ => None
  end.

Definition sample_Pack (m : Msg) : option (list byte) :=
  if bool_decide (0 <= Id m < 256)
  then Some [byte_of_Z (Id m); if Response m then x01 else x00]
  else None.

Definition sample_Exchange (req : Msg) : option Msg :=
  Some (mkMsg (Id req) true true (Questions req) sample_answer).

Definition sample_ParseIP (host : string) : option IP :=
  if bool_decide (host = "1.2.3.4") then Some [x01; x02; x03; x04] else None.

Definition sample_world : World := {|
  ParseIP := sample_ParseIP;
  Fqdn := fun host => host +:+ ".";
  dns_Id := 42;
  Pack := sample_Pack;
  Unpack := sample_Unpack;
  DefaultLookuper := Some sample_Exchange;
  Packed := sample_Packed;
  fs_SendFrame := fun _ _ => ret None;
  Readcnt_Close := None;
  Writecnt_Close := None;
  DEBUGDNS := false;
|}.

(** A client session (odd ids) on a carrier that takes every write. *)
Definition client_session : Session := NewSession (NewCarrier []) 1.

Definition a_stream (id : Z) : Conn := mkConn id "tcp" "example.test:80" ST_EST.

(** The same client session once stream 1 is open. *)
Definition client_with_stream_1 : Session :=
  set_ports {[1 := FConn (a_stream 1)]} client_session.

(** A session on which [Close] has run. *)
Definition closed_session : Session :=
  match Close sample_world client_session with
  | Ret _ s => s
  | _ => client_session
  end.

(** The client session with stream 7 open. *)
Definition client_with_stream_7 : Session :=
  set_ports {[7 := FConn (a_stream 7)]} client_session.

(** The A and AAAA records of an answer section, in order. *)
Definition address_records (answer : list RR) : list IP :=
  omap (fun a => match a with
                 | RR_A ip => Some ip
                 | RR_AAAA ip => Some ip
                 | RR_other _ => None
                 end) answer.

(** The frame is a DNS frame that unpacks to the response [res] to [req]. *)
Definition answers W (f : Frame) (req res : Msg) : Prop :=
  exists i d, f = FrameDns i d /\ Unpack W d = Some res /\
              Response res = true /\ Id res = Id req.

Definition stream_of (fs : FrameSender) : option Conn :=
  match fs with
  | FConn c => Some c
  | _ => None
  end.

(** The entries of a port table that are streams. *)
Definition streams_of (p : gmap Z FrameSender) : list Conn :=
  omap (fun kv => stream_of kv.2) (map_to_list p).

(** Every stream sits under its own streamid. *)
Definition keyed (p : gmap Z FrameSender) : Prop :=
  forall k c, p !! k = Some (FConn c) -> streamid c = k.

Definition ascending (l : list Conn) : Prop :=
  StronglySorted (fun ci cj => streamid ci <= streamid cj) l.

Definition strictly_ascending (l : list Conn) : Prop :=
  StronglySorted (fun ci cj => streamid ci < streamid cj) l.

(** The state of a client session while two calls of [Dial] are between
    [PutIntoNextId] and the assignment of [c.streamid]: both streams are
    in the table, each still with the streamid 0 that [NewConn] got. *)
Definition two_dials_in_flight : Session :=
  match bind (PutIntoNextId (FConn (NewConn 0 "tcp" "a.test:80")))
             (fun _ => PutIntoNextId (FConn (NewConn 0 "tcp" "b.test:80")))
             client_session with
  | Ret _ s => s
  | _ => client_session
  end.

(** The client session with the streams 5 and 3 open and a DNS lookup
    waiting on id 1. *)
Definition client_with_streams : Session :=
  set_ports (<[5 := FConn (a_stream 5)]>
             (<[1 := FChan 0]> {[3 := FConn (a_stream 3)]})) client_session.

(** [k] calls of [PutIntoNextId] in a row, with the ids they hand out; the
    row ends at the first call that fails. *)
Fixpoint PutIntoNextId_times (k : nat) (fs : FrameSender) : M (list Z) :=
  match k with
  | O => ret []
  | S k' =>
      a <- PutIntoNextId fs ;;
      match a.2 with
      | Some _ => ret []
      | None => ids <- PutIntoNextId_times k' fs ;; ret (a.1 :: ids)
      end
  end.

(** The ids [n], [n + 2], ... of [k] allocations in steps of two. *)
Definition ids_by_two (n : Z) (k : nat) : list Z :=
  (fun i => u16 (n + 2 * Z.of_nat i)) <$> seq 0 k.

(** Variants of the sample world: the [SendFrame] of the ports, the
    closing of the read counter and the resolver are given. *)
Definition sample_world_with (send : FrameSender -> Frame -> M (option error))
  (counter : option error) (lookuper : option (Msg -> option Msg)) : World := {|
  ParseIP := sample_ParseIP;
  Fqdn := fun host => host +:+ ".";
  dns_Id := 42;
  Pack := sample_Pack;
  Unpack := sample_Unpack;
  DefaultLookuper := lookuper;
  Packed := sample_Packed;
  fs_SendFrame := send;
  Readcnt_Close := counter;
  Writecnt_Close := None;
  DEBUGDNS := false;
|}.

(** The read counter fails to close. *)
Definition world_with_failing_counter : World :=
  sample_world_with (fun _ _ => ret None) (Some (ErrOther 9)) (Some sample_Exchange).

(** The ports refuse every frame. *)
Definition world_with_failing_ports : World :=
  sample_world_with (fun _ _ => ret (Some (ErrOther 7))) None (Some sample_Exchange).

(** No resolver is installed. *)
Definition world_without_resolver : World :=
  sample_world_with (fun _ _ => ret None) None None.

(** The resolver fails on every query. *)
Definition world_with_failing_resolver : World :=
  sample_world_with (fun _ _ => ret None) None (Some (fun _ => None)).

(** PING and SPAM, the two kinds the read loop skips. *)
Definition is_ignored_frame (f : Frame) : bool :=
  match f with
  | FramePing _ | FrameSpam _ _ => true
  | _ => false
  end.

(** No port of the table holds a nil FrameSender. *)
Definition no_nil_port (p : gmap Z FrameSender) : Prop :=
  forall k, p !! k <> Some FNil.

(** The port takes the frame without error and leaves the session alone
    (as a stream that only queues the bytes; not one that answers, or
    that takes itself out of the table on a RST or on the closing FIN). *)
Definition quiet_port (W : World) (fs : FrameSender) (f : Frame) : Prop :=
  forall s, fs_SendFrame W fs f s = Ret None s.

(** A frame the read loop can hand over quietly: a stream frame whose
    streamid has a port, not nil, that is quiet on it. *)
Definition deliverable (W : World) (s : Session) (f : Frame) : Prop :=
  is_stream_frame f = true /\
  exists fs, ports s !! GetStreamid f = Some fs /\ fs <> FNil /\
             quiet_port W fs f.

(** The unpacked payload has no question. *)
Definition world_with_bare_queries : World := {|
  ParseIP := sample_ParseIP;
  Fqdn := fun host => host +:+ ".";
  dns_Id := 42;
  Pack := sample_Pack;
  Unpack := fun _ => Some (mkMsg 7 false true [] []);
  DefaultLookuper := Some sample_Exchange;
  Packed := sample_Packed;
  fs_SendFrame := fun _ _ => ret None;
  Readcnt_Close := None;
  Writecnt_Close := None;
  DEBUGDNS := false;
|}.

(** The carrier is open and takes the next write in full. *)
Definition carrier_ready (s : Session) : Prop :=
  conn_closed (conn s) = false /\
  (wscript (conn s) = [] \/ exists rest, wscript (conn s) = WFull :: rest).

(** The session after the block [b] has been written in full. *)
Definition after_write (b : list byte) (s : Session) : Session :=
  set_conn (mkCarrier (sent (conn s) ++ [b]) (tail (wscript (conn s))) false) s.

(** The request that [MakeDnsFrame] builds for [host]. *)
Definition lookup_request (W : World) (host : string) (t : Z) : Msg :=
  mkMsg (dns_Id W) false true [mkQuestion (Fqdn W host) t] [].

(** [req] is a query with a question, which [on_dns] passes to the
    resolver. *)
Definition is_query (req : Msg) : Prop :=
  Response req = false /\ Questions req <> [].

(** A port table in which every id is taken. *)
Definition full_table : gmap Z FrameSender :=
  list_to_map ((fun i => (i, FChan 0)) <$> seqZ 0 U16).

Definition full_session : Session := set_ports full_table client_session.

(** A stand-in for [SendSynAndWait]: it writes the SYN of the stream and
    does not wait for the RESULT. *)
Definition sample_SendSyn (c : Conn) : M (option error) :=
  SendFrame sample_world (FrameSyn (streamid c) (network c) (address c)).

(** The client session with a nil FrameSender stored under id 6. *)
Definition client_with_nil_port : Session :=
  set_ports {[6 := FNil]} client_session.

(** The client session on a carrier whose next write stops after three
    bytes. *)
Definition client_on_slow_carrier : Session :=
  set_conn (NewCarrier [WShort 3]) client_session.

(** * Properties *)

(** ** Stepping through the monad *)

Lemma bind_Ret {A B} (m : M A) (k : A -> M B) s a s' :
  m s = Ret a s' -> bind m k s = k a s'.
Proof. unfold bind. intros ->. reflexivity. Qed.

Lemma bind_Block {A B} (m : M A) (k : A -> M B) s :
  m s = Block -> bind m k s = Block.
Proof. unfold bind. intros ->. reflexivity. Qed.

Lemma Lock_free s : plock s = Unlocked -> Lock s = Ret tt (set_plock WLocked s).
Proof. unfold Lock. intros ->. reflexivity. Qed.

Lemma Lock_held s : plock s = WLocked -> Lock s = Block.
Proof. unfold Lock. intros ->. reflexivity. Qed.

Lemma RLock_held s : plock s = WLocked -> RLock s = Block.
Proof. unfold RLock. intros ->. reflexivity. Qed.

(** Taking and giving back the read lock leaves a session with a free
    lock as it was. *)
Lemma set_plock_same s : set_plock (plock s) s = s.
Proof. destruct s; reflexivity. Qed.

Ltac run_go :=
  unfold bind, ret, gets, modify, Lock, Unlock, RLock, RUnlock; simpl.

(** ** The scan of PutIntoNextId *)

Lemma u16_range z : is_u16 (u16 z).
Proof. unfold is_u16, u16, U16. apply Z.mod_pos_bound. lia. Qed.

Lemma u16_id z : is_u16 z -> u16 z = z.
Proof. unfold is_u16, u16, U16. intros H. apply Z.mod_small. lia. Qed.

Lemma u16_succ a : u16 (u16 a + 1) = u16 (a + 1).
Proof. unfold u16, U16. apply Zplus_mod_idemp_l. Qed.

Section Scan.

Variable p : gmap Z FrameSender.
Variable startid : Z.
Hypothesis startid_u16 : is_u16 startid.

Lemma probe_0 : probe startid 0 = startid.
Proof. unfold probe. rewrite Z.add_0_r. apply u16_id, startid_u16. Qed.

Lemma probe_succ j : u16 (probe startid j + 1) = probe startid (j + 1).
Proof. unfold probe. rewrite u16_succ. f_equal. lia. Qed.

Lemma probe_back j : 0 <= j < U16 -> probe startid j = startid -> j = 0.
Proof.
  unfold probe, u16, is_u16, U16 in *. intros Hj He.
  pose proof (Z.div_mod (startid + j) 65536 ltac:(lia)) as Hd.
  rewrite He in Hd.
  assert (Hq : (startid + j) / 65536 = 0 \/ (startid + j) / 65536 = 1).
  { assert (0 <= (startid + j) / 65536) by (apply Z.div_pos; lia).
    assert ((startid + j) / 65536 < 2) by (apply Z.div_lt_upper_bound; lia).
    lia. }
  lia.
Qed.

Lemma scan_ports_spec fuel : forall j,
  0 <= j < U16 -> Z.of_nat fuel = U16 - j ->
  match scan_ports fuel p startid (probe startid j) with
  | Free id =>
      exists j', j <= j' < U16 /\ id = probe startid j' /\ p !! id = None /\
                 taken_between p startid j j'
  | Wrapped => taken_between p startid j U16
  | ScanNoFuel => False
  end.
Proof.
  induction fuel as [|fuel IH]; intros j Hj Hfuel.
  - simpl in Hfuel. lia.
  - simpl. destruct (p !! probe startid j) as [fs|] eqn:Hport.
    + rewrite probe_succ. destruct (decide (probe startid (j + 1) = startid)) as [Hb|Hb].
      * (* the scan is back at startid *)
        assert (j + 1 = U16) as Hlast.
        { destruct (Z.eq_dec (j + 1) U16) as [|Hne]; [assumption|].
          apply probe_back in Hb; lia. }
        intros i Hi. assert (i = j) as -> by lia. rewrite Hport. eauto.
      * assert (j + 1 < U16) as Hlt.
        { destruct (Z.eq_dec (j + 1) U16) as [He|]; [|lia].
          exfalso. apply Hb. unfold probe. rewrite He.
          unfold u16. rewrite <- (Z.mul_1_l U16) at 1.
          rewrite Z.mod_add by (unfold U16; lia).
          apply u16_id, startid_u16. }
        specialize (IH (j + 1) ltac:(lia) ltac:(lia)).
        destruct (scan_ports fuel p startid (probe startid (j + 1))) as [id| |].
        -- destruct IH as (j' & Hj' & -> & Hnone & Htaken).
           exists j'. repeat split; try lia; try assumption.
           intros i Hi. destruct (Z.eq_dec i j) as [->|].
           ++ rewrite Hport. eauto.
           ++ apply Htaken. lia.
        -- intros i Hi. destruct (Z.eq_dec i j) as [->|].
           ++ rewrite Hport. eauto.
           ++ apply IH. lia.
        -- assumption.
    + exists j. repeat split; try lia; try assumption.
      intros i Hi. lia.
Qed.

Lemma taken_all : taken_between p startid 0 U16 <-> all_taken p.
Proof.
  split.
  - intros H i Hi.
    assert (probe startid (u16 (i - startid)) = i) as <-.
    { unfold probe, u16. rewrite Zplus_mod_idemp_r.
      replace (startid + (i - startid)) with i by lia.
      apply u16_id, Hi. }
    apply H. apply u16_range.
  - intros H i _. apply H, u16_range.
Qed.

(** With 65536 steps of fuel the scan always ends: it finds a free id, or
    it is back at [startid] and every id is taken. *)
Lemma scan_ports_full :
  match scan_ports (Z.to_nat U16) p startid startid with
  | Free id => is_u16 id /\ p !! id = None /\ ~ all_taken p
  | Wrapped => all_taken p
  | ScanNoFuel => False
  end.
Proof.
  pose proof (scan_ports_spec (Z.to_nat U16) 0) as H.
  rewrite probe_0 in H.
  specialize (H ltac:(unfold U16; lia) ltac:(unfold U16; lia)).
  destruct (scan_ports (Z.to_nat U16) p startid startid) as [id| |].
  - destruct H as (j' & Hj' & -> & Hnone & _).
    split; [apply u16_range|]. split; [assumption|].
    intros Hall. destruct (Hall (probe startid j') (u16_range _)) as [x Hx]. congruence.
  - apply taken_all, H.
  - assumption.
Qed.

End Scan.

(** ** PutIntoNextId, PutIntoId and RemovePort, case by case *)

(** On a session whose lock is free, [PutIntoNextId] returns: with the
    error and the lock still held when every id is taken, and otherwise
    with the first free id, which it stores, stepping [next_id] two past
    it. *)
Lemma PutIntoNextId_cases fs s :
  plock s = Unlocked -> is_u16 (next_id s) ->
  (all_taken (ports s) /\
   PutIntoNextId fs s = Ret (0, Some ErrRunOutOfStreamId) (set_plock WLocked s))
  \/
  (exists id, is_u16 id /\ ports s !! id = None /\ ~ all_taken (ports s) /\
     PutIntoNextId fs s =
       Ret (id, None)
           (set_ports (<[id := fs]> (ports s)) (set_next_id (u16 (id + 2)) s))).
Proof.
  intros Hl Hn.
  pose proof (scan_ports_full (ports s) (next_id s) Hn) as Hscan.
  unfold PutIntoNextId, bind, gets, Lock. rewrite Hl. cbv beta iota.
  change (next_id (set_plock WLocked s)) with (next_id s).
  change (ports (set_plock WLocked s)) with (ports s).
  destruct (scan_ports (Z.to_nat U16) (ports s) (next_id s) (next_id s)) as [id| |].
  - right. exists id. destruct Hscan as (Hid & Hnone & Hsome).
    do 3 (split; [assumption|]).
    unfold modify, Unlock, ret.
    destruct s; simpl in *; subst; reflexivity.
  - left. split; [assumption | reflexivity].
  - contradiction.
Qed.

Lemma PutIntoId_cases id fs s :
  plock s = Unlocked ->
  PutIntoId id fs s =
    match ports s !! id with
    | Some _ => Ret (Some ErrIdExist) (set_plock WLocked s)
    | None => Ret None (set_ports (<[id := fs]> (ports s)) s)
    end.
Proof.
  intros Hl. unfold PutIntoId, bind, gets, Lock. rewrite Hl. cbv beta iota.
  change (ports (set_plock WLocked s)) with (ports s).
  destruct (ports s !! id); [reflexivity|].
  unfold modify, Unlock, ret.
  destruct s; simpl in *; subst; reflexivity.
Qed.

Lemma RemovePort_cases id s :
  plock s = Unlocked ->
  RemovePort id s =
    match ports s !! id with
    | None => Ret (Some (ErrPortNotExist id)) (set_plock WLocked s)
    | Some _ => Ret None (set_ports (delete id (ports s)) s)
    end.
Proof.
  intros Hl. unfold RemovePort, bind, gets, Lock. rewrite Hl. cbv beta iota.
  change (ports (set_plock WLocked s)) with (ports s).
  destruct (ports s !! id); [|reflexivity].
  unfold modify, Unlock, ret.
  destruct s; simpl in *; subst; reflexivity.
Qed.

(** ** Stream ids handed out by PutIntoNextId *)

(** C1, on the code: a client session whose [next_id] is 1 and whose
    stream 1 is still open scans on to 2, hands out this even id and
    leaves [next_id] at 4; from here on it allocates even ids. *)
Theorem PutIntoNextId_crosses_parity :
  Z.odd (next_id client_with_stream_1) = true /\
  exists s',
    PutIntoNextId (FConn (NewConn 0 "tcp" "example.test:80")) client_with_stream_1
      = Ret (2, None) s' /\
    Z.odd 2 = false /\ next_id s' = 4 /\
    ports s' !! 2 = Some (FConn (NewConn 0 "tcp" "example.test:80")).
Proof.
  split; [reflexivity|]. vm_compute. eexists. repeat split.
Qed.

(** C8: on a session whose lock is free, [PutIntoNextId] returns; its
    error is RunOutOfStreamId exactly when the scan came back to where it
    started, that is when every one of the 65536 ids is taken; it has no
    other error, and when it fails the id returned is the zero value and
    the port table and [next_id] are as before. *)
Theorem PutIntoNextId_runs_out_iff fs s :
  plock s = Unlocked -> is_u16 (next_id s) ->
  exists id err s',
    PutIntoNextId fs s = Ret (id, err) s' /\
    (err = Some ErrRunOutOfStreamId <->
       scan_ports (Z.to_nat U16) (ports s) (next_id s) (next_id s) = Wrapped) /\
    (err = Some ErrRunOutOfStreamId <-> all_taken (ports s)) /\
    (err <> None ->
       err = Some ErrRunOutOfStreamId /\ id = 0 /\
       ports s' = ports s /\ next_id s' = next_id s).
Proof.
  intros Hl Hn.
  pose proof (scan_ports_full (ports s) (next_id s) Hn) as Hscan.
  destruct (PutIntoNextId_cases fs s Hl Hn) as [[Hall ->]|(i & Hi & Hnone & Hsome & ->)].
  - exists 0, (Some ErrRunOutOfStreamId), (set_plock WLocked s).
    split; [reflexivity|]. split; [|split].
    + split; [|reflexivity]. intros _.
      destruct (scan_ports _ _ _ _); [|reflexivity|contradiction].
      destruct Hscan as (_ & _ & Hn'). contradiction.
    + split; [intros _; assumption | reflexivity].
    + intros _. repeat split.
  - eexists i, None, _. split; [reflexivity|]. split; [|split].
    + split; [discriminate|]. intros Hw. rewrite Hw in Hscan. contradiction.
    + split; [discriminate | intros Hall; contradiction].
    + intros H. contradiction.
Qed.

Lemma PutIntoNextId_runs_out_iff_witness :
  exists id err s',
    PutIntoNextId (FChan 0) client_with_stream_1 = Ret (id, err) s' /\
    (err = Some ErrRunOutOfStreamId <->
       scan_ports (Z.to_nat U16) (ports client_with_stream_1)
                  (next_id client_with_stream_1) (next_id client_with_stream_1)
         = Wrapped) /\
    (err = Some ErrRunOutOfStreamId <-> all_taken (ports client_with_stream_1)) /\
    (err <> None ->
       err = Some ErrRunOutOfStreamId /\ id = 0 /\
       ports s' = ports client_with_stream_1 /\
       next_id s' = next_id client_with_stream_1).
Proof.
  apply (PutIntoNextId_runs_out_iff (FChan 0) client_with_stream_1).
  - reflexivity.
  - unfold is_u16, U16. simpl. lia.
Defined.

(** ** Close and the closed flag *)

(** The loop of [Close] over the ports: it starts [CloseFrame] for them
    one after the other, and panics at the first nil FrameSender. *)
Lemma close_ports_outcome l : forall s,
  ((FNil ∉ l) /\
   close_ports l s = Ret tt (set_spawned (spawned s ++ (TCloseFrame <$> l)) s))
  \/
  ((FNil ∈ l) /\
   exists started,
     close_ports l s = Crash (set_spawned (spawned s ++ started) s)).
Proof.
  induction l as [|v l IH]; intros s.
  - left. split; [apply not_elem_of_nil|]. simpl. rewrite app_nil_r.
    destruct s; reflexivity.
  - destruct v as [c|n|].
    + simpl. unfold bind, modify.
      destruct (IH (set_spawned (spawned s ++ [TCloseFrame (FConn c)]) s))
        as [[Hno ->]|[Hin [started ->]]].
      * left. split; [rewrite not_elem_of_cons; split; [discriminate|exact Hno]|].
        simpl. rewrite <- app_assoc. destruct s; reflexivity.
      * right. split; [right; exact Hin|].
        exists ([TCloseFrame (FConn c)] ++ started). simpl.
        rewrite <- app_assoc. destruct s; reflexivity.
    + simpl. unfold bind, modify.
      destruct (IH (set_spawned (spawned s ++ [TCloseFrame (FChan n)]) s))
        as [[Hno ->]|[Hin [started ->]]].
      * left. split; [rewrite not_elem_of_cons; split; [discriminate|exact Hno]|].
        simpl. rewrite <- app_assoc. destruct s; reflexivity.
      * right. split; [right; exact Hin|].
        exists ([TCloseFrame (FChan n)] ++ started). simpl.
        rewrite <- app_assoc. destruct s; reflexivity.
    + right. split; [left|]. exists []. simpl. rewrite app_nil_r.
      destruct s; reflexivity.
Qed.

Lemma no_nil_port_list (p : gmap Z FrameSender) :
  no_nil_port p <-> FNil ∉ (map_to_list p).*2.
Proof.
  unfold no_nil_port. split.
  - intros H Hin. apply list_elem_of_fmap in Hin as ([k x] & Hx & Hin).
    simpl in Hx. subst x. apply elem_of_map_to_list in Hin. exact (H k Hin).
  - intros H k Hk. apply H. apply list_elem_of_fmap. exists (k, FNil).
    split; [reflexivity|]. apply elem_of_map_to_list, Hk.
Qed.

(** [Close] on a session whose lock is free: it returns, or it panics
    at a nil FrameSender; either way the deferred calls have run, so that
    the carrier is closed and the lock free again. *)
Lemma Close_outcome W s :
  plock s = Unlocked ->
  (exists err s',
     Close W s = Ret err s' /\
     conn_closed (conn s') = true /\ ports s' = ports s /\
     plock s' = Unlocked /\ next_id s' = next_id s /\
     delivered s' = delivered s /\ sent (conn s') = sent (conn s) /\
     (Readcnt_Close W = None -> Writecnt_Close W = None ->
        no_nil_port (ports s) /\ err = None /\ closed s' = true /\
        spawned s' = spawned s ++ (TCloseFrame <$> (map_to_list (ports s)).*2)))
  \/
  (exists s',
     Close W s = Crash s' /\
     conn_closed (conn s') = true /\ ports s' = ports s /\
     plock s' = Unlocked /\ closed s' = closed s /\
     delivered s' = delivered s /\ sent (conn s') = sent (conn s) /\
     ~ no_nil_port (ports s) /\
     Readcnt_Close W = None /\ Writecnt_Close W = None).
Proof.
  intros Hl. destruct s as [c cl l n p d t]. simpl in Hl. subst l.
  unfold Close, with_defer, Conn_Close.
  destruct (Readcnt_Close W) as [e|].
  { left. run_go. eexists _, _. split; [reflexivity|]. simpl.
    repeat split; discriminate. }
  destruct (Writecnt_Close W) as [e|].
  { left. run_go. eexists _, _. split; [reflexivity|]. simpl.
    repeat split; discriminate. }
  unfold bind, gets, modify, ret, RLock.
  cbn [plock set_plock conn closed next_id ports delivered spawned].
  destruct (close_ports_outcome (map_to_list p).*2
              (set_plock (RLocked 1) (mkSession c cl Unlocked n p d t)))
    as [[Hno ->]|[Hin [started ->]]].
  - left. unfold RUnlock. simpl. eexists _, _. split; [reflexivity|]. simpl.
    do 6 (split; [reflexivity|]). intros _ _.
    split; [apply no_nil_port_list, Hno|]. repeat split.
  - right. unfold RUnlock. simpl. eexists. split; [reflexivity|]. simpl.
    do 6 (split; [reflexivity|]).
    split; [|split; reflexivity].
    intros Hnn. apply no_nil_port_list in Hnn. exact (Hnn Hin).
Qed.

(** [Close] on a session whose lock is free and whose ports are not nil
    returns with the carrier closed and the port table as it was; unless
    a speed counter fails to close, it has started [CloseFrame] for every
    port and set the flag. *)
Lemma Close_returns W s :
  plock s = Unlocked -> no_nil_port (ports s) ->
  exists err s',
    Close W s = Ret err s' /\
    conn_closed (conn s') = true /\ ports s' = ports s /\
    plock s' = Unlocked /\ next_id s' = next_id s /\
    (Readcnt_Close W = None -> Writecnt_Close W = None ->
       err = None /\ closed s' = true /\
       spawned s' = spawned s ++ (TCloseFrame <$> (map_to_list (ports s)).*2)).
Proof.
  intros Hl Hnn.
  destruct (Close_outcome W s Hl)
    as [(err & s' & Hc & H1 & H2 & H3 & H4 & _ & _ & H5)
       |(s' & _ & _ & _ & _ & _ & _ & _ & Hnil & _)];
    [|contradiction].
  exists err, s'. split; [exact Hc|]. do 4 (split; [assumption|]).
  intros Hr Hw. destruct (H5 Hr Hw) as (_ & Ha & Hb & Hd). auto.
Qed.

(** C5, as stated, fails: on the session that [Close] has closed, both
    calls succeed and put a port into the table. *)
Lemma closed_session_takes_ports :
  closed closed_session = true /\ ports closed_session = ∅ /\
  (exists s', PutIntoId 8 (FConn (a_stream 8)) closed_session = Ret None s' /\
              ports s' !! 8 = Some (FConn (a_stream 8))) /\
  (exists s', PutIntoNextId (FChan 0) closed_session = Ret (1, None) s' /\
              ports s' !! 1 = Some (FChan 0)).
Proof.
  split; [reflexivity|]. split; [reflexivity|].
  split; vm_compute; eexists; split; reflexivity.
Qed.

(** C5, amended: neither [PutIntoId] nor [PutIntoNextId] reads the closed
    flag.  Each acts on a session with the flag set to [b] as it does on
    the same session with any other value of the flag, and hands the flag
    on; so on a closed session with a free lock a free id is stored and
    handed out as on an open one. *)
Theorem PutInto_ignores_closed b id fs s :
  PutIntoId id fs (set_closed b s)
    = outcome_map (set_closed b) (PutIntoId id fs s) /\
  PutIntoNextId fs (set_closed b s)
    = outcome_map (set_closed b) (PutIntoNextId fs s) /\
  (closed s = true -> plock s = Unlocked -> ports s !! id = None ->
     PutIntoId id fs s = Ret None (set_ports (<[id := fs]> (ports s)) s)).
Proof.
  split; [|split].
  - unfold PutIntoId, bind, gets, Lock, modify, Unlock, ret.
    destruct s as [c cl l n p d t]. simpl.
    destruct l; simpl; try reflexivity.
    destruct (p !! id); reflexivity.
  - unfold PutIntoNextId, bind, gets, Lock, modify, Unlock, ret.
    generalize (Z.to_nat U16). intros fuel.
    destruct s as [c cl l n p d t]. simpl.
    destruct l; simpl; try reflexivity.
    destruct (scan_ports fuel p n n); reflexivity.
  - intros _ Hl Hfree. rewrite PutIntoId_cases by assumption.
    rewrite Hfree. reflexivity.
Qed.

Lemma PutInto_ignores_closed_witness :
  PutIntoId 8 (FChan 0) closed_session
    = Ret None (set_ports (<[8 := FChan 0]> (ports closed_session)) closed_session).
Proof.
  apply (PutInto_ignores_closed true 8 (FChan 0) closed_session);
    reflexivity.
Defined.

(** ** Frames for a stream that is not in the port table *)

Lemma Run_stops_on_error W f rest s e s1 :
  dispatch W f s = Ret (Some e) s1 ->
  Run W (ReadOk f :: rest) s = bind (Close W) (fun _ => ret Returned) s1.
Proof.
  intros H. unfold Run. simpl Run_loop. unfold bind at 1. rewrite H.
  reflexivity.
Qed.

Lemma Run_goes_on W f rest s s1 :
  dispatch W f s = Ret None s1 ->
  Run W (ReadOk f :: rest) s = Run W rest s1.
Proof.
  intros H. unfold Run. simpl Run_loop. unfold bind at 1. rewrite H.
  reflexivity.
Qed.

Lemma sendFrameInChan_missing W f s :
  plock s = Unlocked -> ports s !! GetStreamid f = None ->
  sendFrameInChan W f s = Ret (Some ErrStreamNotExist) s.
Proof.
  intros Hl Hp. destruct s as [c cl l n p d t]. simpl in *. subst l.
  unfold sendFrameInChan. run_go. rewrite Hp. reflexivity.
Qed.

(** On a session whose lock is free and whose ports are not nil, a
    RESULT, DATA, WND, FIN or RST frame for a streamid that has no port
    is answered with StreamNotExist, and the read loop returns on it,
    whatever follows on the carrier: the deferred [Close] runs, the
    carrier is closed and, the speed counters closing without error, the
    session is marked closed. *)
Lemma unknown_stream_ends_open_session W f rest s :
  is_stream_frame f = true ->
  ports s !! GetStreamid f = None ->
  plock s = Unlocked -> no_nil_port (ports s) ->
  dispatch W f s = Ret (Some ErrStreamNotExist) s /\
  exists s',
    Run W (ReadOk f :: rest) s = Ret Returned s' /\
    conn_closed (conn s') = true /\
    (Readcnt_Close W = None -> Writecnt_Close W = None -> closed s' = true).
Proof.
  intros Hf Hp Hl Hnn.
  assert (Hd : dispatch W f s = Ret (Some ErrStreamNotExist) s).
  { destruct f; try discriminate Hf; simpl;
      apply sendFrameInChan_missing; assumption. }
  split; [assumption|].
  rewrite (Run_stops_on_error _ _ _ _ _ _ Hd).
  destruct (Close_returns W s Hl Hnn)
    as (err & s' & Hc & Hcc & _ & _ & _ & Hflag).
  exists s'. unfold bind. rewrite Hc. split; [reflexivity|].
  split; [assumption|]. intros H1 H2. apply Hflag; assumption.
Qed.

(** C2, on the code: on the session with stream 7 and a free lock, a
    DATA frame for the unknown streamid 9 is answered with StreamNotExist
    and the session is closed, as the claim says.  Once a SYN for the
    streamid 7 in use has been handled, the same frame is answered by
    nothing: the lock that [PutIntoId] kept makes the dispatch wait for
    ever, and the session does not terminate, not even at the end of the
    carrier.  With a nil FrameSender in the table (under another id) the
    frame is answered with StreamNotExist and the deferred [Close]
    panics, the closed flag left unset. *)
Theorem unknown_stream_blocks_after_duplicate_syn :
  let syn := FrameSyn 7 "tcp" "example.test:443" in
  let data := FrameData 9 [x68; x69] in
  ports client_with_stream_7 !! 9 = None /\
  (exists s',
     Run sample_world [ReadOk data] client_with_stream_7 = Ret Returned s' /\
     conn_closed (conn s') = true /\ closed s' = true) /\
  (exists s1,
     Run sample_world [ReadOk syn] client_with_stream_7 = Ret Reading s1 /\
     ports s1 !! 9 = None /\ plock s1 = WLocked /\
     dispatch sample_world data s1 = Block) /\
  Run sample_world [ReadOk syn; ReadOk data] client_with_stream_7 = Block /\
  Run sample_world [ReadOk syn; ReadOk data; ReadEOF] client_with_stream_7
    = Block /\
  ports client_with_nil_port !! 9 = None /\
  (exists s',
     Run sample_world [ReadOk data] client_with_nil_port = Crash s' /\
     delivered s' = [] /\ closed s' = false).
Proof.
  cbv zeta. split; [reflexivity|]. split.
  { eexists. split; [vm_compute; reflexivity|]. split; reflexivity. }
  split.
  { eexists. split; [vm_compute; reflexivity|].
    split; [reflexivity|]. split; reflexivity. }
  split; [vm_compute; reflexivity|]. split; [vm_compute; reflexivity|].
  split; [reflexivity|].
  eexists. split; [vm_compute; reflexivity|]. split; reflexivity.
Qed.

(** ** A SYN for a streamid that is in use *)

(** While the lock of the port table is held, every frame that needs the
    table stops the read loop for good. *)
Lemma locked_table_blocks W f rest s :
  plock s = WLocked ->
  (is_stream_frame f = true \/ exists i n a, f = FrameSyn i n a) ->
  Run W (ReadOk f :: rest) s = Block.
Proof.
  intros Hl Hf. unfold Run. simpl Run_loop. unfold bind at 1 2.
  assert (Hd : dispatch W f s = Block).
  { destruct Hf as [Hf|(i & n & a & ->)].
    - destruct f; try discriminate Hf; simpl;
        unfold sendFrameInChan; apply bind_Block, RLock_held, Hl.
    - simpl. unfold on_syn. simpl.
      apply bind_Block. unfold PutIntoId. apply bind_Block, Lock_held, Hl. }
  rewrite Hd. reflexivity.
Qed.

(** [on_syn] on an id that is in use: the table is as before, and the
    lock taken by [PutIntoId] is still held when [on_syn] returns. *)
Lemma on_syn_id_exist W i n a s :
  plock s = Unlocked -> is_Some (ports s !! i) ->
  exists err s',
    on_syn W i n a s = Ret err s' /\ ports s' = ports s /\ plock s' = WLocked.
Proof.
  intros Hl [fs Hfs]. unfold on_syn. simpl.
  unfold bind at 1. rewrite PutIntoId_cases by assumption. rewrite Hfs.
  unfold SendFrame, Conn_Write. run_go.
  destruct (Packed W _) as [b|]; simpl; [|eauto].
  destruct (conn_closed (conn s)); simpl; [eauto|].
  destruct (wscript (conn s)) as [|[| |k] ?]; simpl;
    repeat case_decide; simpl; eauto.
Qed.

(** C4, on the code: a SYN for streamid 7 reaches a session that has
    stream 7.  The session answers RESULT(IDEXIST), leaves the table as it
    is and goes back to reading, but with the lock of the port table
    held: [PutIntoId] returned ErrIdExist without unlocking.  The next
    DATA frame, or the next SYN, blocks the read loop for ever, and so
    does a local [PutIntoNextId]. *)
Theorem duplicate_syn_locks_port_table :
  let syn := FrameSyn 7 "tcp" "example.test:443" in
  (exists s' b,
     Run sample_world [ReadOk syn] client_with_stream_7 = Ret Reading s' /\
     ports s' = ports client_with_stream_7 /\
     Packed sample_world (NewFrameResult 7 ERR_IDEXIST) = Some b /\
     sent (conn s') = [b] /\
     plock s' = WLocked /\
     PutIntoNextId (FChan 0) s' = Block) /\
  Run sample_world [ReadOk syn; ReadOk (FrameData 7 [x68; x69])]
      client_with_stream_7 = Block /\
  Run sample_world [ReadOk syn; ReadOk (FrameSyn 9 "tcp" "example.test:80")]
      client_with_stream_7 = Block.
Proof.
  cbv zeta. split; [|split; vm_compute; reflexivity].
  eexists _, _. split; [vm_compute; reflexivity|].
  repeat split; vm_compute; reflexivity.
Qed.

(** ** DNS frames in the read loop *)

Lemma on_dns_unpack_error W i d s :
  Unpack W d = None -> on_dns W i d s = Ret (Some ErrDnsMsgIllegal) s.
Proof. intros H. unfold on_dns. rewrite H. reflexivity. Qed.

Lemma on_dns_response_without_port W i d res s :
  Unpack W d = Some res -> Response res = true ->
  plock s = Unlocked -> ports s !! i = None ->
  on_dns W i d s = Ret (Some ErrStreamNotExist) s.
Proof.
  intros Hu Hr Hl Hp. unfold on_dns. rewrite Hu, Hr.
  apply sendFrameInChan_missing; assumption.
Qed.

(** Either error of [on_dns] makes [Run] return and close the session. *)
Lemma dns_error_ends_session W i d rest s :
  plock s = Unlocked -> no_nil_port (ports s) ->
  Unpack W d = None \/
  (exists res, Unpack W d = Some res /\ Response res = true /\
               ports s !! i = None) ->
  exists s',
    Run W (ReadOk (FrameDns i d) :: rest) s = Ret Returned s' /\
    conn_closed (conn s') = true.
Proof.
  intros Hl Hnn Hcase.
  assert (exists e, dispatch W (FrameDns i d) s = Ret (Some e) s) as [e Hd].
  { simpl. destruct Hcase as [Hu|(res & Hu & Hr & Hp)].
    - eexists. apply on_dns_unpack_error, Hu.
    - eexists. eapply on_dns_response_without_port; eassumption. }
  rewrite (Run_stops_on_error _ _ _ _ _ _ Hd).
  destruct (Close_returns W s Hl Hnn) as (err & s' & Hc & Hcc & _).
  exists s'. unfold bind. rewrite Hc. split; [reflexivity | assumption].
Qed.

(** C3, on the code: a DNS frame whose payload does not unpack, and a DNS
    response for streamid 9 on which nothing waits, each make [on_dns]
    return an error; the read loop returns on it and the session is
    closed, with the frames that follow left unread. *)
Theorem dns_error_closes_session :
  let later := [ReadOk (FramePing 0); ReadOk (FrameSpam 0 [])] in
  Unpack sample_world [] = None /\
  on_dns sample_world 9 [] client_session
    = Ret (Some ErrDnsMsgIllegal) client_session /\
  (exists s',
     Run sample_world (ReadOk (FrameDns 9 []) :: later) client_session
       = Ret Returned s' /\
     conn_closed (conn s') = true /\ closed s' = true) /\
  (Response <$> Unpack sample_world [x2a; x01]) = Some true /\
  on_dns sample_world 9 [x2a; x01] client_session
    = Ret (Some ErrStreamNotExist) client_session /\
  (exists s',
     Run sample_world (ReadOk (FrameDns 9 [x2a; x01]) :: later) client_session
       = Ret Returned s' /\
     conn_closed (conn s') = true /\ closed s' = true).
Proof.
  cbv zeta. repeat split; try (vm_compute; reflexivity);
    vm_compute; eexists; repeat split.
Qed.

(** ** Looking up a literal address *)

(** C6: when the host parses as an IP address, [LookupIP] returns the
    list holding this one address and no error, and the session is
    exactly as before: nothing was written to the carrier and the port
    table, its lock and [next_id] were not touched. *)
Theorem LookupIP_literal W host ip recv s :
  ParseIP W host = Some ip ->
  LookupIP W host recv s = Ret ([ip], None) s.
Proof. intros H. unfold LookupIP. rewrite H. reflexivity. Qed.

Lemma LookupIP_literal_witness :
  LookupIP sample_world "1.2.3.4" (inr ErrTimeout) client_with_stream_1
    = Ret ([[x01; x02; x03; x04]], None) client_with_stream_1.
Proof.
  apply (LookupIP_literal sample_world "1.2.3.4" [x01; x02; x03; x04]).
  reflexivity.
Defined.

(** ** ParseDnsFrame *)

Lemma collect_addrs_from (answer : list RR) (acc : list IP) :
  fold_left (fun addrs a =>
               match a with
               | RR_A ip => addrs ++ [ip]
               | RR_AAAA ip => addrs ++ [ip]
               | RR_other _ => addrs
               end) answer acc
  = acc ++ address_records answer.
Proof.
  revert acc. induction answer as [|a answer IH]; intros acc; simpl.
  - rewrite app_nil_r. reflexivity.
  - rewrite IH. destruct a; simpl; rewrite <- ?app_assoc; reflexivity.
Qed.

Lemma collect_addrs_records answer : collect_addrs answer = address_records answer.
Proof. unfold collect_addrs. apply collect_addrs_from. Qed.

(** C7: [ParseDnsFrame] returns DnsMsgIllegal exactly when the frame is
    not a DNS frame that unpacks to a response carrying the id of the
    request; every list of addresses it returns without error is the list
    of the A and AAAA records of such a response, in the order of its
    answer section; and it does return that list for such a response,
    the debug log of the question name apart (DEBUGDNS with a request
    that has no question). *)
Theorem ParseDnsFrame_spec W f req :
  (ParseDnsFrame W f req = Some ([], Some ErrDnsMsgIllegal)
     <-> ~ exists res, answers W f req res) /\
  (forall addrs err, ParseDnsFrame W f req = Some (addrs, err) ->
     err = None \/ (err = Some ErrDnsMsgIllegal /\ addrs = [])) /\
  (forall addrs, ParseDnsFrame W f req = Some (addrs, None) ->
     exists res, answers W f req res /\ addrs = address_records (Answer res)) /\
  (forall res, answers W f req res ->
     DEBUGDNS W = false \/ Questions req <> [] ->
     ParseDnsFrame W f req = Some (address_records (Answer res), None)).
Proof.
  assert (Hnot : forall res, answers W f req res ->
                 ParseDnsFrame W f req <> Some ([], Some ErrDnsMsgIllegal)).
  { intros res (i & d & -> & Hu & Hr & Hid). simpl. rewrite Hu, Hr.
    rewrite (proj2 (Z.eqb_eq _ _) Hid). simpl.
    destruct (DEBUGDNS W && bool_decide (Questions req = [])); discriminate. }
  assert (Hok : forall addrs, ParseDnsFrame W f req = Some (addrs, None) ->
     exists res, answers W f req res /\ addrs = address_records (Answer res)).
  { intros addrs H. destruct f; simpl in H; try discriminate H.
    destruct (Unpack W Data) as [res|] eqn:Hu; [|discriminate H].
    destruct (Response res) eqn:Hr; simpl in H; [|discriminate H].
    destruct (Id res =? Id req) eqn:Hid; simpl in H; [|discriminate H].
    destruct (DEBUGDNS W && bool_decide (Questions req = [])); [discriminate H|].
    injection H as <-. exists res. split.
    - exists Streamid, Data. apply Z.eqb_eq in Hid. auto.
    - apply collect_addrs_records. }
  split; [|split; [|split]].
  - split.
    + intros H [res Hres]. exact (Hnot res Hres H).
    + intros H. destruct f; simpl; try reflexivity.
      destruct (Unpack W Data) as [res|] eqn:Hu; [|reflexivity].
      destruct (Response res) eqn:Hr; simpl; [|reflexivity].
      destruct (Id res =? Id req) eqn:Hid; simpl; [|reflexivity].
      exfalso. apply H. exists res, Streamid, Data.
      apply Z.eqb_eq in Hid. auto.
  - intros addrs err H. destruct f; simpl in H;
      try (injection H as <- <-; right; split; reflexivity).
    destruct (Unpack W Data) as [res|];
      [|injection H as <- <-; right; split; reflexivity].
    destruct (negb (Response res) || negb (Id res =? Id req));
      [injection H as <- <-; right; split; reflexivity|].
    destruct (DEBUGDNS W && bool_decide (Questions req = [])); [discriminate H|].
    injection H as <- <-. left. reflexivity.
  - exact Hok.
  - intros res (i & d & -> & Hu & Hr & Hid) Hdbg. simpl. rewrite Hu, Hr.
    rewrite (proj2 (Z.eqb_eq _ _) Hid). simpl.
    assert (DEBUGDNS W && bool_decide (Questions req = []) = false) as ->.
    { destruct Hdbg as [->|Hq]; [reflexivity|].
      rewrite bool_decide_eq_false_2 by assumption. apply andb_false_r. }
    rewrite collect_addrs_records. reflexivity.
Qed.

Lemma ParseDnsFrame_spec_witness :
  ParseDnsFrame sample_world (FrameDns 3 [x2a; x01])
                (mkMsg 42 false true [mkQuestion "example.test." TypeA] [])
  = Some ([[x01; x02; x03; x04];
           [x20; x01; x0d; xb8; x00; x00; x00; x00;
            x00; x00; x00; x00; x00; x00; x00; x01]], None).
Proof.
  apply (proj2 (proj2 (proj2
    (ParseDnsFrame_spec sample_world (FrameDns 3 [x2a; x01])
       (mkMsg 42 false true [mkQuestion "example.test." TypeA] []))))
    (mkMsg 42 true true [mkQuestion "example.test." TypeA] sample_answer)).
  - exists 3, [x2a; x01]. repeat split.
  - left. reflexivity.
Defined.

(** ** A tunnelled lookup gives its port back *)

Lemma set_conn_same s : set_conn (conn s) s = s.
Proof. destruct s; reflexivity. Qed.

(** [SendFrame] touches nothing but the carrier. *)
Lemma SendFrame_conn_only W f s :
  exists err c', SendFrame W f s = Ret err (set_conn c' s).
Proof.
  unfold SendFrame, Conn_Write.
  destruct (Packed W f) as [b|].
  - unfold bind. destruct (conn_closed (conn s)).
    + exists (Some (ErrOther 0)), (conn s). rewrite set_conn_same. reflexivity.
    + destruct (wscript (conn s)) as [|[| |k] rest]; cbv beta iota;
        try case_decide; eexists _, _; reflexivity.
  - exists (Some (ErrOther 2)), (conn s). rewrite set_conn_same. reflexivity.
Qed.

(** The deferred [RemovePort] at the end of [LookupIP]. *)
Lemma RemovePort_deferred {A} id (res : A) s :
  plock s = Unlocked -> is_Some (ports s !! id) ->
  bind (RemovePort id) (fun _ => ret res) s
    = Ret res (set_ports (delete id (ports s)) s).
Proof.
  intros Hl [fs Hfs]. unfold bind.
  rewrite RemovePort_cases by assumption. rewrite Hfs. reflexivity.
Qed.

(** The request of a lookup has one question, so that [ParseDnsFrame]
    finds a name to log. *)
Lemma ParseDnsFrame_of_request W host t id fres :
  is_Some (ParseDnsFrame W fres (MakeDnsFrame W host t id).1).
Proof.
  unfold MakeDnsFrame. destruct (Pack W _); simpl;
    (destruct fres; simpl; eauto;
     destruct (Unpack W Data); eauto;
     destruct (negb (Response m) || negb (Id m =? dns_Id W)); eauto;
     rewrite andb_false_r; eauto).
Qed.

(** C9: a tunnelled [LookupIP] (the host is not a literal address, the
    lock is free and an id is left) returns on every path, whatever the
    carrier does with the request and whatever [RecvWithTimeout] yields
    (a good or a malformed response, the timeout, another error).  The
    port table and the lock are then as the call found them: the id that
    [PutIntoNextId] had handed out, free before the call, is free again. *)
Theorem LookupIP_gives_port_back W host recv s :
  ParseIP W host = None ->
  plock s = Unlocked -> is_u16 (next_id s) -> ~ all_taken (ports s) ->
  exists addrs err s' id s1,
    LookupIP W host recv s = Ret (addrs, err) s' /\
    ports s' = ports s /\ plock s' = Unlocked /\
    PutIntoNextId (CreateChanFrameSender 0) s = Ret (id, None) s1 /\
    ports s1 !! id = Some (CreateChanFrameSender 0) /\
    ports s !! id = None /\ ports s' !! id = None.
Proof.
  intros Hp Hl Hn Hfree.
  destruct (PutIntoNextId_cases (CreateChanFrameSender 0) s Hl Hn)
    as [[Hall _]|(id & Hid & Hnone & _ & Hput)]; [contradiction|].
  unfold LookupIP. rewrite Hp. unfold bind at 1. rewrite Hput.
  cbv beta iota.
  set (s1 := set_ports _ _) in *.
  assert (Hl1 : forall c, plock (set_conn c s1) = Unlocked) by (intros; exact Hl).
  assert (Hp1 : forall c, ports (set_conn c s1) !! id = Some (CreateChanFrameSender 0)).
  { intros c. simpl. apply lookup_insert_eq. }
  assert (Hend : forall (r : list IP * option error) c,
    exists s', bind (RemovePort id) (fun _ => ret r) (set_conn c s1) = Ret r s' /\
               ports s' = ports s /\ plock s' = Unlocked).
  { intros r c. rewrite RemovePort_deferred by (rewrite ?Hp1; eauto).
    eexists. split; [reflexivity|]. split; [|exact Hl].
    simpl. apply delete_insert_id, Hnone. }
  pose proof (ParseDnsFrame_of_request W host TypeA id) as HP.
  assert (Hgoal : exists r s',
    bind (let '(req, freq) := MakeDnsFrame W host TypeA id in
          match freq with
          | None => ret (Some ([], Some (ErrOther 3)))
          | Some freq =>
              bind (SendFrame W freq) (fun err =>
                match err with
                | Some e => ret (Some ([], Some e))
                | None =>
                    match recv with
                    | inr e => ret (Some ([], Some e))
                    | inl fres => ret (ParseDnsFrame W fres req)
                    end
                end)
          end)
         (fun r => bind (RemovePort id) (fun _ =>
            match r with Some res => ret res | None => panic end)) s1
      = Ret r s' /\ ports s' = ports s /\ plock s' = Unlocked).
  { destruct (MakeDnsFrame W host TypeA id) as [req [freq|]]; simpl in HP.
    - destruct (SendFrame_conn_only W freq s1) as (e & c' & Hs).
      unfold bind at 1 2. rewrite Hs.
      destruct e as [e|].
      + destruct (Hend ([], Some e) c') as (s' & H1 & H2). eauto.
      + destruct recv as [fres|e].
        * destruct (HP fres) as [r Hr]. unfold ret at 1. rewrite Hr.
          destruct (Hend r c') as (s' & H1 & H2). eauto.
        * destruct (Hend ([], Some e) c') as (s' & H1 & H2). eauto.
    - unfold bind at 1. unfold ret at 1.
      rewrite <- (set_conn_same s1).
      destruct (Hend ([], Some (ErrOther 3)) (conn s1)) as (s' & H1 & H2). eauto. }
  destruct Hgoal as ([addrs err] & s' & Hrun & Hports & Hlock).
  exists addrs, err, s', id, s1. split; [exact Hrun|].
  split; [exact Hports|]. split; [exact Hlock|]. split; [reflexivity|].
  split; [apply (Hp1 (conn s1))|]. split; [exact Hnone|].
  rewrite Hports. exact Hnone.
Qed.

Lemma LookupIP_gives_port_back_witness :
  exists addrs err s' id s1,
    LookupIP sample_world "example.test" (inr ErrTimeout) client_with_stream_1
      = Ret (addrs, err) s' /\
    ports s' = ports client_with_stream_1 /\ plock s' = Unlocked /\
    PutIntoNextId (CreateChanFrameSender 0) client_with_stream_1
      = Ret (id, None) s1 /\
    ports s1 !! id = Some (CreateChanFrameSender 0) /\
    ports client_with_stream_1 !! id = None /\ ports s' !! id = None.
Proof.
  apply (LookupIP_gives_port_back sample_world "example.test" (inr ErrTimeout)
           client_with_stream_1).
  - reflexivity.
  - reflexivity.
  - unfold is_u16, U16. simpl. lia.
  - intros H. destruct (H 0) as [x Hx]; [unfold is_u16, U16; lia|].
    vm_compute in Hx. discriminate Hx.
Defined.

(** ** Listing the streams in order *)

Lemma GetPorts_loop (l : list (Z * FrameSender)) (acc : list Conn) :
  fold_left (fun acc kv =>
               match kv.2 with
               | FConn c => acc ++ [c]
               | _ => acc
               end) l acc
  = acc ++ omap (fun kv => stream_of kv.2) l.
Proof.
  revert acc. induction l as [|[k fs] l IH]; intros acc; simpl.
  - rewrite app_nil_r. reflexivity.
  - rewrite IH. destruct fs; simpl; rewrite <- ?app_assoc; reflexivity.
Qed.

Lemma GetPorts_returns s :
  plock s = Unlocked -> GetPorts s = Ret (streams_of (ports s)) s.
Proof.
  intros Hl. destruct s as [c cl l n p d t]. simpl in Hl. subst l.
  unfold GetPorts. run_go. rewrite GetPorts_loop. reflexivity.
Qed.

Lemma elem_of_streams_of p c :
  c ∈ streams_of p <-> exists k, p !! k = Some (FConn c).
Proof.
  unfold streams_of. rewrite list_elem_of_omap. split.
  - intros ([k fs] & Hin & Hs). apply elem_of_map_to_list in Hin.
    destruct fs; simpl in Hs; try discriminate. injection Hs as ->. eauto.
  - intros [k Hk]. exists (k, FConn c). split; [|reflexivity].
    apply elem_of_map_to_list, Hk.
Qed.

Section Sort.

Context {A : Type} (less : A -> A -> bool).

Lemma sort_insert_perm x l : Permutation (sort_insert less x l) (x :: l).
Proof.
  induction l as [|y l IH]; simpl; [reflexivity|].
  destruct (less y x); [|reflexivity].
  rewrite IH. apply perm_swap.
Qed.

Lemma sort_Sort_perm l : Permutation (sort_Sort less l) l.
Proof.
  induction l as [|x l IH]; simpl; [reflexivity|].
  rewrite sort_insert_perm. apply perm_skip, IH.
Qed.

End Sort.

Lemma sort_insert_ascending c l :
  ascending l -> ascending (sort_insert Less c l).
Proof.
  unfold ascending. induction l as [|y l IH]; intros Hs; simpl.
  - repeat constructor.
  - apply StronglySorted_inv in Hs as [Hs Hy].
    unfold Less at 1. destruct (Z.ltb_spec (streamid y) (streamid c)).
    + constructor; [apply IH, Hs|].
      eapply Permutation_Forall; [symmetry; apply sort_insert_perm|].
      constructor; [lia | exact Hy].
    + constructor; [constructor; assumption|].
      constructor; [assumption|].
      eapply Forall_impl; [exact Hy|]. simpl. intros; lia.
Qed.

Lemma sort_Sort_ascending l : ascending (sort_Sort Less l).
Proof.
  induction l as [|c l IH]; simpl.
  - constructor.
  - apply sort_insert_ascending, IH.
Qed.

Lemma ascending_strict l :
  ascending l -> NoDup (streamid <$> l) -> strictly_ascending l.
Proof.
  unfold ascending, strictly_ascending.
  induction l as [|c l IH]; intros Hs Hn; [constructor|].
  apply StronglySorted_inv in Hs as [Hs Hc].
  rewrite fmap_cons in Hn. apply NoDup_cons in Hn as [Hnotin Hn].
  constructor; [apply IH; assumption|].
  rewrite Forall_forall in Hc |- *. intros c' Hin.
  specialize (Hc c' Hin).
  assert (streamid c <> streamid c'); [|lia].
  intros Heq. apply Hnotin. rewrite Heq.
  apply list_elem_of_fmap. exists c'. split; [reflexivity|].
  exact Hin.
Qed.

Lemma keyed_streams_sublist (l : list (Z * FrameSender)) :
  (forall k c, (k, FConn c) ∈ l -> streamid c = k) ->
  (streamid <$> omap (fun kv => stream_of kv.2) l) `sublist_of` l.*1.
Proof.
  induction l as [|[k fs] l IH]; intros Hk; simpl; [constructor|].
  assert (Hl : forall k c, (k, FConn c) ∈ l -> streamid c = k).
  { intros k' c' Hin. apply Hk. right. exact Hin. }
  destruct fs as [c| |]; simpl.
  - rewrite (Hk k c) by left. apply sublist_skip, IH, Hl.
  - apply sublist_cons, IH, Hl.
  - apply sublist_cons, IH, Hl.
Qed.

Lemma keyed_streams_NoDup p : keyed p -> NoDup (streamid <$> streams_of p).
Proof.
  intros Hk. eapply sublist_NoDup; [apply (NoDup_fst_map_to_list p)|].
  apply keyed_streams_sublist. intros k c Hin.
  apply Hk. apply elem_of_map_to_list, Hin.
Qed.

(** C10, as stated, fails: with these two streams in the table (under the
    keys 1 and 3) [GetSortedPorts] returns two streams of streamid 0, a
    list that is not strictly ascending. *)
Lemma GetSortedPorts_not_strict :
  ports two_dials_in_flight !! 1 = Some (FConn (NewConn 0 "tcp" "a.test:80")) /\
  ports two_dials_in_flight !! 3 = Some (FConn (NewConn 0 "tcp" "b.test:80")) /\
  exists l,
    GetSortedPorts two_dials_in_flight = Ret l two_dials_in_flight /\
    streamid <$> l = [0; 0] /\
    ~ strictly_ascending l.
Proof.
  split; [vm_compute; reflexivity|]. split; [vm_compute; reflexivity|].
  eexists. split; [vm_compute; reflexivity|]. split; [reflexivity|].
  intros H. apply StronglySorted_inv in H as [_ H].
  apply Forall_inv in H. simpl in H. lia.
Qed.

(** C10, amended: [GetSortedPorts] returns the entries of the port table
    that are streams, each as often as the table holds it and nothing
    else (channels of DNS lookups and nil entries are left out), in
    ascending order of the streamid field, equal streamids side by side;
    the order is strictly ascending when every stream sits under its own
    streamid.  The session is left as it was. *)
Theorem GetSortedPorts_spec s :
  plock s = Unlocked ->
  exists l,
    GetSortedPorts s = Ret l s /\
    Permutation l (streams_of (ports s)) /\
    (forall c, c ∈ l <-> exists k, ports s !! k = Some (FConn c)) /\
    ascending l /\
    (keyed (ports s) -> strictly_ascending l).
Proof.
  intros Hl. exists (sort_Sort Less (streams_of (ports s))).
  assert (Hperm : Permutation (sort_Sort Less (streams_of (ports s)))
                              (streams_of (ports s)))
    by apply sort_Sort_perm.
  split; [|split; [|split; [|split]]].
  - unfold GetSortedPorts, bind. rewrite GetPorts_returns by assumption.
    reflexivity.
  - exact Hperm.
  - intros c. rewrite Hperm. apply elem_of_streams_of.
  - apply sort_Sort_ascending.
  - intros Hk. apply ascending_strict; [apply sort_Sort_ascending|].
    rewrite Hperm. apply keyed_streams_NoDup, Hk.
Qed.

Lemma GetSortedPorts_spec_witness :
  exists l,
    GetSortedPorts client_with_streams = Ret l client_with_streams /\
    Permutation l (streams_of (ports client_with_streams)) /\
    (forall c, c ∈ l <->
               exists k, ports client_with_streams !! k = Some (FConn c)) /\
    ascending l /\
    (keyed (ports client_with_streams) -> strictly_ascending l).
Proof.
  apply (GetSortedPorts_spec client_with_streams). reflexivity.
Defined.

Example GetSortedPorts_sample :
  GetSortedPorts client_with_streams
    = Ret [a_stream 3; a_stream 5] client_with_streams.
Proof. vm_compute. reflexivity. Qed.

(** ** Sample runs *)

(** A lookup over the tunnel that is answered: the request goes out on
    the id that was handed out, the two addresses of the answer come
    back, and the table holds stream 1 alone, as before. *)
Example LookupIP_sample_answer :
  exists s',
    LookupIP sample_world "example.test" (inl (FrameDns 2 [x2a; x01]))
             client_with_stream_1
      = Ret (address_records sample_answer, None) s' /\
    ports s' = ports client_with_stream_1 /\
    Some <$> sent (conn s')
      = [(Packed sample_world (NewFrameDns 2 [x2a; x00]))].
Proof. vm_compute. eexists. repeat split. Qed.

(** The same lookup on a carrier whose next write fails. *)
Example LookupIP_sample_send_failure :
  exists s',
    LookupIP sample_world "example.test" (inl (FrameDns 2 [x2a; x01]))
             (set_conn (NewCarrier [WError]) client_with_stream_1)
      = Ret ([], Some (ErrOther 1)) s' /\
    ports s' = ports client_with_stream_1 /\ sent (conn s') = [].
Proof. vm_compute. eexists. repeat split. Qed.

(** The read loop on a SYN for a free id, DATA for the new stream, a DNS
    query and a PING: the stream is stored, its dial is started, the data
    is handed to it, the query is answered, and the loop reads on with
    the lock free. *)
Example Run_sample :
  exists s',
    Run sample_world
        [ReadOk (FrameSyn 2 "tcp" "example.test:80");
         ReadOk (FrameData 2 [x68; x69]);
         ReadOk (FrameDns 4 [x07; x00]);
         ReadOk (FramePing 0)] client_with_stream_1
      = Ret Reading s' /\
    ports s' !! 2 = Some (FConn (mkConn 2 "tcp" "example.test:80" ST_SYN_RECV)) /\
    spawned s' = [TDial (mkConn 2 "tcp" "example.test:80" ST_SYN_RECV)] /\
    delivered s' = [(2, FrameData 2 [x68; x69])] /\
    Some <$> sent (conn s') = [Packed sample_world (NewFrameDns 4 [x07; x01])] /\
    plock s' = Unlocked /\ closed s' = false.
Proof. vm_compute. eexists. repeat split. Qed.

(** * Further properties of the session *)

(** ** More on the allocation of ids *)

(** [PutIntoNextId] in terms of its scan. *)
Lemma PutIntoNextId_scan fs s :
  plock s = Unlocked ->
  PutIntoNextId fs s =
    match scan_ports (Z.to_nat U16) (ports s) (next_id s) (next_id s) with
    | Free id =>
        Ret (id, None)
            (set_ports (<[id := fs]> (ports s)) (set_next_id (u16 (id + 2)) s))
    | Wrapped => Ret (0, Some ErrRunOutOfStreamId) (set_plock WLocked s)
    | ScanNoFuel => NoFuel
    end.
Proof.
  intros Hl. unfold PutIntoNextId, bind, gets, Lock. rewrite Hl. cbv beta iota.
  change (next_id (set_plock WLocked s)) with (next_id s).
  change (ports (set_plock WLocked s)) with (ports s).
  destruct (scan_ports (Z.to_nat U16) (ports s) (next_id s) (next_id s));
    try reflexivity.
  unfold modify, Unlock, ret. destruct s; simpl in *; subst; reflexivity.
Qed.

(** A free slot at [next_id] is taken at once. *)
Lemma PutIntoNextId_free_slot fs s :
  plock s = Unlocked -> ports s !! next_id s = None ->
  PutIntoNextId fs s =
    Ret (next_id s, None)
        (set_ports (<[next_id s := fs]> (ports s))
                   (set_next_id (u16 (next_id s + 2)) s)).
Proof.
  intros Hl Hfree. rewrite PutIntoNextId_scan by assumption.
  destruct (Z.to_nat U16) as [|fuel] eqn:Hfuel.
  - unfold U16 in Hfuel. lia.
  - simpl. rewrite Hfree. reflexivity.
Qed.

(** X1: the id that [PutIntoNextId] hands out is the first free one in
    the order next_id, next_id + 1, next_id + 2, ... (modulo 65536): the
    ids before it in this order all have a port.  The port is stored
    under this id and [next_id] is left two past it. *)
Theorem PutIntoNextId_first_free fs s :
  plock s = Unlocked -> is_u16 (next_id s) -> ~ all_taken (ports s) ->
  exists j s',
    0 <= j < U16 /\
    PutIntoNextId fs s = Ret (u16 (next_id s + j), None) s' /\
    (forall i, 0 <= i < j -> is_Some (ports s !! u16 (next_id s + i))) /\
    ports s !! u16 (next_id s + j) = None /\
    ports s' = <[u16 (next_id s + j) := fs]> (ports s) /\
    next_id s' = u16 (u16 (next_id s + j) + 2) /\
    plock s' = Unlocked.
Proof.
  intros Hl Hn Hfree.
  pose proof (scan_ports_spec (ports s) (next_id s) Hn (Z.to_nat U16) 0) as H.
  rewrite probe_0 in H by assumption.
  specialize (H ltac:(unfold U16; lia) ltac:(unfold U16; lia)).
  rewrite PutIntoNextId_scan by assumption.
  destruct (scan_ports (Z.to_nat U16) (ports s) (next_id s) (next_id s))
    as [id| |].
  - destruct H as (j & Hj & -> & Hnone & Htaken).
    exists j. eexists. split; [lia|]. split; [reflexivity|].
    split; [intros i Hi; apply (Htaken i); lia|].
    split; [exact Hnone|]. split; [reflexivity|].
    split; [reflexivity|exact Hl].
  - exfalso. apply Hfree. apply (taken_all (ports s) (next_id s)), H.
  - contradiction.
Qed.

Lemma PutIntoNextId_first_free_witness :
  exists j s',
    0 <= j < U16 /\
    PutIntoNextId (FChan 0) client_with_stream_1
      = Ret (u16 (next_id client_with_stream_1 + j), None) s' /\
    (forall i, 0 <= i < j ->
       is_Some (ports client_with_stream_1 !! u16 (next_id client_with_stream_1 + i))) /\
    ports client_with_stream_1 !! u16 (next_id client_with_stream_1 + j) = None /\
    ports s' = <[u16 (next_id client_with_stream_1 + j) := FChan 0]>
                 (ports client_with_stream_1) /\
    next_id s' = u16 (u16 (next_id client_with_stream_1 + j) + 2) /\
    plock s' = Unlocked.
Proof.
  apply (PutIntoNextId_first_free (FChan 0) client_with_stream_1).
  - reflexivity.
  - unfold is_u16, U16. simpl. lia.
  - intros H. destruct (H 0) as [x Hx]; [unfold is_u16, U16; lia|].
    vm_compute in Hx. discriminate Hx.
Defined.

(** Arithmetic of ids in steps of two. *)
Lemma u16_add_2 a : u16 (u16 a + 2) = u16 (a + 2).
Proof. unfold u16, U16. apply Zplus_mod_idemp_l. Qed.

Lemma u16_apart a b : 0 < a - b < U16 -> u16 a <> u16 b.
Proof.
  unfold u16, U16. intros Hd He.
  pose proof (Z.div_mod a 65536 ltac:(lia)) as Ha.
  pose proof (Z.div_mod b 65536 ltac:(lia)) as Hb.
  rewrite He in Ha. lia.
Qed.

Lemma u16_odd a : Z.odd (u16 a) = Z.odd a.
Proof.
  unfold u16, U16. rewrite Z.mod_eq by lia.
  replace (a - 65536 * (a / 65536)) with (a + 2 * (- (32768 * (a / 65536)))) by lia.
  apply Z.odd_add_mul_2.
Qed.

Lemma ids_by_two_parity n k :
  Forall (fun id => Z.odd id = Z.odd n) (ids_by_two n k).
Proof.
  unfold ids_by_two. apply Forall_fmap, Forall_forall. intros i _. simpl.
  rewrite u16_odd. apply Z.odd_add_mul_2.
Qed.

(** [k] allocations from a state in which [j] ids, n, n + 2, ..., have
    been handed out and no other port is in the table. *)
Lemma PutIntoNextId_times_steps fs n k : forall j s,
  plock s = Unlocked ->
  next_id s = u16 (n + 2 * Z.of_nat j) ->
  (forall key, is_Some (ports s !! key) ->
     exists i, (i < j)%nat /\ key = u16 (n + 2 * Z.of_nat i)) ->
  Z.of_nat (j + k) <= 32768 ->
  exists s',
    PutIntoNextId_times k fs s
      = Ret ((fun i => u16 (n + 2 * Z.of_nat i)) <$> seq j k) s' /\
    next_id s' = u16 (n + 2 * Z.of_nat (j + k)) /\ plock s' = Unlocked /\
    (forall key, is_Some (ports s' !! key) <->
       is_Some (ports s !! key) \/
       exists i, (j <= i < j + k)%nat /\ key = u16 (n + 2 * Z.of_nat i)).
Proof.
  induction k as [|k IH]; intros j s Hl Hn Hkeys Hk.
  - exists s. simpl. split; [reflexivity|]. rewrite Nat.add_0_r.
    split; [exact Hn|]. split; [exact Hl|].
    intros key. split; [auto|]. intros [H|(i & Hi & _)]; [exact H | lia].
  - assert (Hfree : ports s !! next_id s = None).
    { destruct (ports s !! next_id s) as [x|] eqn:Hx; [|reflexivity].
      destruct (Hkeys (next_id s) (mk_is_Some _ _ Hx)) as (i & Hi & He).
      exfalso. rewrite Hn in He. revert He. apply u16_apart.
      unfold U16. lia. }
    simpl PutIntoNextId_times. unfold bind at 1.
    rewrite PutIntoNextId_free_slot by assumption.
    cbv beta iota delta [fst snd].
    set (s1 := set_ports _ _).
    destruct (IH (S j) s1) as (s' & Hrun & Hn' & Hl' & Hkeys').
    + exact Hl.
    + simpl. rewrite Hn, u16_add_2. f_equal. lia.
    + intros key. simpl. rewrite lookup_insert.
      case_decide as Hkey.
      * intros _. exists j. split; [lia|]. rewrite <- Hkey. exact Hn.
      * intros H. destruct (Hkeys key H) as (i & Hi & He).
        exists i. split; [lia | exact He].
    + lia.
    + exists s'. unfold bind. rewrite Hrun. unfold ret.
      split; [rewrite Hn; reflexivity|].
      split; [rewrite Hn'; f_equal; lia|]. split; [exact Hl'|].
      intros key. rewrite Hkeys'. simpl. rewrite lookup_insert.
      case_decide as Hkey.
      * split.
        -- intros _. right. exists j. split; [lia|].
           rewrite <- Hkey. exact Hn.
        -- intros _. left. eauto.
      * split.
        -- intros [H|(i & Hi & He)]; [left; exact H|].
           right. exists i. split; [lia | exact He].
        -- intros [H|(i & Hi & He)]; [left; exact H|].
           destruct (decide (i = j)) as [->|Hij].
           ++ exfalso. apply Hkey. rewrite Hn. symmetry. exact He.
           ++ right. exists i. split; [lia | exact He].
Qed.

(** X2: on a new session [k] calls of [PutIntoNextId] in a row (at most
    32768, with no port removed or added in between) all succeed and hand
    out next_id, next_id + 2, next_id + 4, ... modulo 65536, in this
    order: every id has the parity of the initial [next_id]. *)
Theorem new_session_ids_step_by_two c n fs k :
  is_u16 n -> Z.of_nat k <= 32768 ->
  exists s',
    PutIntoNextId_times k fs (NewSession c n) = Ret (ids_by_two n k) s' /\
    Forall (fun id => Z.odd id = Z.odd n) (ids_by_two n k) /\
    length (ids_by_two n k) = k /\
    next_id s' = u16 (n + 2 * Z.of_nat k) /\
    (forall key, is_Some (ports s' !! key) <-> key ∈ ids_by_two n k).
Proof.
  intros Hn Hk.
  destruct (PutIntoNextId_times_steps fs n k 0%nat (NewSession c n))
    as (s' & Hrun & Hn' & _ & Hkeys).
  - reflexivity.
  - simpl. symmetry. rewrite Z.add_0_r. apply u16_id, Hn.
  - intros key [x Hx]. simpl in Hx. rewrite lookup_empty in Hx. discriminate.
  - lia.
  - exists s'. split; [exact Hrun|]. split; [apply ids_by_two_parity|].
    split; [unfold ids_by_two; rewrite length_fmap, length_seq; reflexivity|].
    split; [exact Hn'|].
    intros key. rewrite Hkeys. unfold ids_by_two.
    rewrite list_elem_of_fmap. simpl. rewrite lookup_empty. split.
    + intros [[x Hx]|(i & Hi & He)]; [discriminate|].
      exists i. split; [exact He|]. apply elem_of_seq. lia.
    + intros (i & He & Hi). apply elem_of_seq in Hi. right.
      exists i. split; [lia | exact He].
Qed.

Lemma new_session_ids_step_by_two_witness :
  exists s',
    PutIntoNextId_times 3 (FChan 0) (NewSession (NewCarrier []) 65533)
      = Ret (ids_by_two 65533 3) s' /\
    Forall (fun id => Z.odd id = Z.odd 65533) (ids_by_two 65533 3) /\
    length (ids_by_two 65533 3) = 3%nat /\
    next_id s' = u16 (65533 + 2 * Z.of_nat 3) /\
    (forall key, is_Some (ports s' !! key) <-> key ∈ ids_by_two 65533 3).
Proof.
  apply (new_session_ids_step_by_two (NewCarrier []) 65533 (FChan 0) 3).
  - unfold is_u16, U16. lia.
  - lia.
Defined.

(** ** Insertion, removal and size *)

Lemma GetSize_returns s :
  plock s = Unlocked -> GetSize s = Ret (Z.of_nat (size (ports s))) s.
Proof.
  intros Hl. destruct s as [c cl l n p d t]. simpl in Hl. subst l.
  reflexivity.
Qed.

Lemma set_ports_same s : set_ports (ports s) s = s.
Proof. destruct s; reflexivity. Qed.

Lemma set_ports_twice p q s : set_ports p (set_ports q s) = set_ports p s.
Proof. destruct s; reflexivity. Qed.

(** X3: neither [PutIntoId] nor [PutIntoNextId] ever replaces or drops a
    port: whatever they return, every entry of the table is still there
    afterwards.  A call that succeeds adds one entry, under an id that
    was free; a call that fails leaves the table as it was. *)
Theorem port_insertion_keeps_entries fs s :
  plock s = Unlocked -> is_u16 (next_id s) ->
  (forall id, exists err s',
     PutIntoId id fs s = Ret err s' /\ ports s ⊆ ports s' /\
     (err = None ->
        ports s !! id = None /\ ports s' !! id = Some fs /\
        size (ports s') = S (size (ports s))) /\
     (err <> None -> ports s' = ports s)) /\
  (exists id err s',
     PutIntoNextId fs s = Ret (id, err) s' /\ ports s ⊆ ports s' /\
     (err = None ->
        ports s !! id = None /\ ports s' !! id = Some fs /\
        size (ports s') = S (size (ports s))) /\
     (err <> None -> ports s' = ports s)).
Proof.
  intros Hl Hn. split.
  - intros id. rewrite PutIntoId_cases by assumption.
    destruct (ports s !! id) as [x|] eqn:Hid.
    + eexists _, _. split; [reflexivity|]. split; [reflexivity|].
      split; [discriminate | reflexivity].
    + eexists _, _. split; [reflexivity|]. simpl.
      split; [apply insert_subseteq, Hid|].
      split; [|intros H; contradiction]. intros _.
      split; [reflexivity|]. split; [apply lookup_insert_eq|].
      apply map_size_insert_None, Hid.
  - destruct (PutIntoNextId_cases fs s Hl Hn)
      as [[_ ->]|(id & _ & Hid & _ & ->)].
    + eexists _, _, _. split; [reflexivity|]. split; [reflexivity|].
      split; [discriminate | reflexivity].
    + eexists _, _, _. split; [reflexivity|]. simpl.
      split; [apply insert_subseteq, Hid|].
      split; [|intros H; contradiction]. intros _.
      split; [exact Hid|]. split; [apply lookup_insert_eq|].
      apply map_size_insert_None, Hid.
Qed.

Lemma port_insertion_keeps_entries_witness :
  exists err s',
    PutIntoId 1 (FChan 0) client_with_stream_1 = Ret err s' /\
    ports client_with_stream_1 ⊆ ports s' /\
    (err = None ->
       ports client_with_stream_1 !! 1 = None /\ ports s' !! 1 = Some (FChan 0) /\
       size (ports s') = S (size (ports client_with_stream_1))) /\
    (err <> None -> ports s' = ports client_with_stream_1).
Proof.
  apply (port_insertion_keeps_entries (FChan 0) client_with_stream_1).
  - reflexivity.
  - unfold is_u16, U16. simpl. lia.
Defined.

(** X4: [PutIntoId] on a free id followed by [RemovePort] of this id
    gives back the session exactly as it was, the lock free; and
    [RemovePort] of a port followed by [PutIntoId] of the same sender
    under the same id does so too. *)
Theorem PutIntoId_RemovePort_round_trip id fs s :
  plock s = Unlocked ->
  (ports s !! id = None ->
     bind (PutIntoId id fs) (fun _ => RemovePort id) s = Ret None s) /\
  (ports s !! id = Some fs ->
     bind (RemovePort id) (fun _ => PutIntoId id fs) s = Ret None s).
Proof.
  intros Hl. split; intros Hid; unfold bind.
  - rewrite PutIntoId_cases, Hid by assumption.
    rewrite RemovePort_cases by exact Hl. simpl ports.
    rewrite lookup_insert_eq, set_ports_twice, delete_insert_id by assumption.
    rewrite set_ports_same. reflexivity.
  - rewrite RemovePort_cases, Hid by assumption.
    rewrite PutIntoId_cases by exact Hl. simpl ports.
    rewrite lookup_delete_eq, set_ports_twice, insert_delete_id by assumption.
    rewrite set_ports_same. reflexivity.
Qed.

Lemma PutIntoId_RemovePort_round_trip_witness :
  bind (PutIntoId 9 (FChan 0)) (fun _ => RemovePort 9) client_with_stream_1
    = Ret None client_with_stream_1 /\
  bind (RemovePort 1) (fun _ => PutIntoId 1 (FConn (a_stream 1)))
       client_with_stream_1
    = Ret None client_with_stream_1.
Proof.
  split.
  - apply (PutIntoId_RemovePort_round_trip 9 (FChan 0) client_with_stream_1);
      reflexivity.
  - apply (PutIntoId_RemovePort_round_trip 1 (FConn (a_stream 1))
             client_with_stream_1); reflexivity.
Defined.

(** With the lock of the port table held, every method that reads or
    writes the table waits for ever, and so does [Close] once both speed
    counters are closed. *)
Lemma held_lock_blocks W s :
  plock s = WLocked ->
  GetSize s = Block /\ GetPorts s = Block /\ GetSortedPorts s = Block /\
  (forall id fs, PutIntoId id fs s = Block) /\
  (forall fs, PutIntoNextId fs s = Block) /\
  (forall id, RemovePort id s = Block) /\
  (forall f, sendFrameInChan W f s = Block) /\
  (Readcnt_Close W = None -> Writecnt_Close W = None -> Close W s = Block).
Proof.
  intros Hl.
  assert (HL : Lock s = Block) by (apply Lock_held, Hl).
  assert (HR : RLock s = Block) by (apply RLock_held, Hl).
  repeat split; intros.
  - unfold GetSize. apply bind_Block, HR.
  - unfold GetPorts. apply bind_Block, HR.
  - unfold GetSortedPorts. apply bind_Block. unfold GetPorts.
    apply bind_Block, HR.
  - unfold PutIntoId. apply bind_Block, HL.
  - unfold PutIntoNextId. apply bind_Block, HL.
  - unfold RemovePort. apply bind_Block, HL.
  - unfold sendFrameInChan. apply bind_Block, HR.
  - unfold Close, with_defer. rewrite H, H0. unfold bind. rewrite HR.
    reflexivity.
Qed.

(** X5: [RemovePort] of an id that has no port returns its error with
    the table as it was, and with the lock it took still held: from then
    on [RemovePort], [PutIntoId], [PutIntoNextId], [GetSize],
    [GetSortedPorts] and the dispatch of a stream frame wait for ever. *)
Theorem RemovePort_missing_locks_table W id s :
  plock s = Unlocked -> ports s !! id = None ->
  exists s',
    RemovePort id s = Ret (Some (ErrPortNotExist id)) s' /\
    ports s' = ports s /\ plock s' = WLocked /\
    RemovePort id s' = Block /\
    (forall i fs, PutIntoId i fs s' = Block) /\
    (forall fs, PutIntoNextId fs s' = Block) /\
    GetSize s' = Block /\ GetSortedPorts s' = Block /\
    (forall f, sendFrameInChan W f s' = Block).
Proof.
  intros Hl Hid. exists (set_plock WLocked s).
  rewrite RemovePort_cases, Hid by assumption.
  destruct (held_lock_blocks W (set_plock WLocked s) eq_refl)
    as (H1 & _ & H3 & H4 & H5 & H6 & H7 & _).
  repeat split; auto.
Qed.

Lemma RemovePort_missing_locks_table_witness :
  exists s',
    RemovePort 9 client_with_stream_1 = Ret (Some (ErrPortNotExist 9)) s' /\
    ports s' = ports client_with_stream_1 /\ plock s' = WLocked /\
    RemovePort 9 s' = Block /\
    (forall i fs, PutIntoId i fs s' = Block) /\
    (forall fs, PutIntoNextId fs s' = Block) /\
    GetSize s' = Block /\ GetSortedPorts s' = Block /\
    (forall f, sendFrameInChan sample_world f s' = Block).
Proof.
  apply (RemovePort_missing_locks_table sample_world 9 client_with_stream_1);
    reflexivity.
Defined.

(** X6: [GetSize] returns the number of ports and leaves the session as
    it is; the number it returns is one more after a [PutIntoId] on a
    free id, and one less after a [RemovePort] of a port. *)
Theorem GetSize_counts_ports id fs s :
  plock s = Unlocked ->
  GetSize s = Ret (Z.of_nat (size (ports s))) s /\
  (ports s !! id = None ->
     exists s', bind (PutIntoId id fs) (fun _ => GetSize) s
                  = Ret (Z.of_nat (size (ports s)) + 1) s') /\
  (is_Some (ports s !! id) ->
     exists s', bind (RemovePort id) (fun _ => GetSize) s
                  = Ret (Z.of_nat (size (ports s)) - 1) s').
Proof.
  intros Hl. split; [apply GetSize_returns, Hl|]. split.
  - intros Hid. unfold bind. rewrite PutIntoId_cases, Hid by assumption.
    rewrite GetSize_returns by exact Hl. simpl ports.
    rewrite map_size_insert_None by assumption.
    eexists. f_equal. lia.
  - intros [x Hid]. unfold bind. rewrite RemovePort_cases, Hid by assumption.
    rewrite GetSize_returns by exact Hl. simpl ports.
    pose proof (map_size_delete_Some id (ports s) (mk_is_Some _ _ Hid)) as Hsize.
    assert (size (ports s) <> 0%nat) as Hpos.
    { intros H0. apply map_size_empty_iff in H0. rewrite H0 in Hid.
      rewrite lookup_empty in Hid. discriminate. }
    eexists. f_equal. lia.
Qed.

Lemma GetSize_counts_ports_witness :
  GetSize client_with_streams
    = Ret (Z.of_nat (size (ports client_with_streams))) client_with_streams /\
  (ports client_with_streams !! 7 = None ->
     exists s', bind (PutIntoId 7 (FChan 0)) (fun _ => GetSize) client_with_streams
                  = Ret (Z.of_nat (size (ports client_with_streams)) + 1) s') /\
  (is_Some (ports client_with_streams !! 7) ->
     exists s', bind (RemovePort 7) (fun _ => GetSize) client_with_streams
                  = Ret (Z.of_nat (size (ports client_with_streams)) - 1) s').
Proof.
  apply (GetSize_counts_ports 7 (FChan 0) client_with_streams). reflexivity.
Defined.

(** ** Close *)

(** X7: [Close] on a session whose lock is free and whose ports are not
    nil, the speed counters closing without error, starts [CloseFrame]
    once for every entry of the port table and for nothing else (the
    tasks it starts are, up to their order, the senders of the entries,
    one task per entry), sets the closed flag and closes the carrier; it
    writes nothing to the carrier and removes no port: the table and the
    lock are as before. *)
Theorem Close_notifies_every_port W s :
  plock s = Unlocked -> no_nil_port (ports s) ->
  Readcnt_Close W = None -> Writecnt_Close W = None ->
  exists s' started,
    Close W s = Ret None s' /\
    closed s' = true /\ conn_closed (conn s') = true /\
    sent (conn s') = sent (conn s) /\
    ports s' = ports s /\ plock s' = Unlocked /\
    spawned s' = spawned s ++ started /\
    Permutation started (TCloseFrame <$> (map_to_list (ports s)).*2) /\
    length started = size (ports s).
Proof.
  intros Hl Hnn Hr Hw.
  destruct (Close_outcome W s Hl)
    as [(err & s' & Hc & H1 & H2 & H3 & _ & _ & H6 & H7)
       |(s' & _ & _ & _ & _ & _ & _ & _ & Hnil & _)];
    [|contradiction].
  destruct (H7 Hr Hw) as (_ & -> & Hflag & Hsp).
  exists s', (TCloseFrame <$> (map_to_list (ports s)).*2).
  split; [exact Hc|]. do 5 (split; [assumption|]).
  split; [exact Hsp|]. split; [reflexivity|].
  rewrite !length_fmap. apply length_map_to_list.
Qed.

Lemma Close_notifies_every_port_witness :
  exists s' started,
    Close sample_world client_with_streams = Ret None s' /\
    closed s' = true /\ conn_closed (conn s') = true /\
    sent (conn s') = sent (conn client_with_streams) /\
    ports s' = ports client_with_streams /\ plock s' = Unlocked /\
    spawned s' = spawned client_with_streams ++ started /\
    Permutation started
      (TCloseFrame <$> (map_to_list (ports client_with_streams)).*2) /\
    length started = size (ports client_with_streams).
Proof.
  apply (Close_notifies_every_port sample_world client_with_streams);
    try reflexivity.
  intros k. vm_compute. destruct k as [|k|k]; try discriminate;
    repeat (destruct k as [k|k|]; try discriminate).
Defined.

(** X8: when a speed counter fails to close, [Close] returns that error
    before it reaches the ports: no [CloseFrame] is started and the
    closed flag is not set, whatever the state of the lock; only the
    deferred close of the carrier takes place. *)
Theorem Close_stops_at_counter_error W e s :
  Readcnt_Close W = Some e \/
  (Readcnt_Close W = None /\ Writecnt_Close W = Some e) ->
  exists s',
    Close W s = Ret (Some e) s' /\
    conn_closed (conn s') = true /\
    closed s' = closed s /\ spawned s' = spawned s /\
    ports s' = ports s /\ plock s' = plock s.
Proof.
  intros [Hr|[Hr Hw]]; unfold Close, with_defer, Conn_Close;
    rewrite Hr, ?Hw; run_go;
    eexists; (split; [reflexivity|]); simpl; repeat split.
Qed.

Lemma Close_stops_at_counter_error_witness :
  exists s',
    Close world_with_failing_counter client_with_streams
      = Ret (Some (ErrOther 9)) s' /\
    conn_closed (conn s') = true /\
    closed s' = closed client_with_streams /\
    spawned s' = spawned client_with_streams /\
    ports s' = ports client_with_streams /\
    plock s' = plock client_with_streams.
Proof.
  apply (Close_stops_at_counter_error world_with_failing_counter (ErrOther 9)
           client_with_streams).
  left. reflexivity.
Defined.

(** ** The read loop *)

(** X9: once a SYN for a streamid in use has been handled, the session
    cannot be closed any more: at the end of the carrier (or at a read
    error) [Run] leaves its loop, and the deferred [Close] waits for ever
    for the lock that [PutIntoId] kept; the carrier is never closed. *)
Theorem duplicate_syn_then_eof_never_closes W i n a r rest s :
  plock s = Unlocked -> is_Some (ports s !! i) ->
  Readcnt_Close W = None -> Writecnt_Close W = None ->
  (r = ReadEOF \/ exists e, r = ReadErr e) ->
  Run W (ReadOk (FrameSyn i n a) :: r :: rest) s = Block.
Proof.
  intros Hl Hi Hr Hw Hend.
  destruct (on_syn_id_exist W i n a s Hl Hi) as (err & s' & Hsyn & _ & Hl').
  assert (Hclose : bind (Close W) (fun _ => ret Returned) s' = Block).
  { apply bind_Block. apply (held_lock_blocks W s' Hl'); assumption. }
  destruct err as [e|].
  - rewrite (Run_stops_on_error W _ _ s e s') by exact Hsyn. exact Hclose.
  - rewrite (Run_goes_on W _ _ s s') by exact Hsyn.
    destruct Hend as [->|[e ->]]; exact Hclose.
Qed.

Lemma duplicate_syn_then_eof_never_closes_witness :
  Run sample_world
      [ReadOk (FrameSyn 7 "tcp" "example.test:443"); ReadEOF]
      client_with_stream_7 = Block.
Proof.
  apply (duplicate_syn_then_eof_never_closes sample_world 7 "tcp"
           "example.test:443" ReadEOF [] client_with_stream_7).
  - reflexivity.
  - eexists. reflexivity.
  - reflexivity.
  - reflexivity.
  - left. reflexivity.
Defined.

Lemma sendFrameInChan_present W f fs s :
  plock s = Unlocked -> ports s !! GetStreamid f = Some fs -> fs <> FNil ->
  sendFrameInChan W f s
    = fs_SendFrame W fs f
        (set_delivered (delivered s ++ [(GetStreamid f, f)]) s).
Proof.
  intros Hl Hp Hnil. destruct s as [c cl l n p d t]. simpl in *. subst l.
  unfold sendFrameInChan. run_go. rewrite Hp.
  destruct fs; [reflexivity | reflexivity | contradiction].
Qed.

Lemma dispatch_stream_frame W f s :
  is_stream_frame f = true -> dispatch W f s = sendFrameInChan W f s.
Proof. intros H. destruct f; try discriminate H; reflexivity. Qed.

(** X10: frames for streams are handed over in the order of the wire.
    When every frame read is a stream frame whose streamid has a port,
    not nil, that takes it without error and leaves the session alone
    (a stream that queues the bytes; not a port that takes itself out of
    the table, as a stream does on a RST or on the closing FIN), [Run]
    hands each to the port of its streamid, in the order read, keeps
    reading, and changes nothing else in the session. *)
Theorem Run_delivers_in_order W frames : forall s,
  plock s = Unlocked ->
  Forall (deliverable W s) frames ->
  Run W (ReadOk <$> frames) s
    = Ret Reading
          (set_delivered
             (delivered s ++ ((fun f => (GetStreamid f, f)) <$> frames)) s).
Proof.
  induction frames as [|f frames IH]; intros s Hl Hall.
  - simpl. rewrite app_nil_r. destruct s; reflexivity.
  - apply Forall_cons in Hall as [(Hf & fs & Hp & Hnil & Hquiet) Hall].
    rewrite fmap_cons.
    rewrite (Run_goes_on W f _ s
               (set_delivered (delivered s ++ [(GetStreamid f, f)]) s)).
    + rewrite IH.
      * simpl. rewrite <- app_assoc. destruct s; reflexivity.
      * exact Hl.
      * eapply Forall_impl; [exact Hall|]. intros f' Hd. exact Hd.
    + rewrite dispatch_stream_frame by exact Hf.
      rewrite (sendFrameInChan_present W f fs) by assumption.
      apply Hquiet.
Qed.

Lemma Run_delivers_in_order_witness :
  Run sample_world
      (ReadOk <$> [FrameData 5 [x68]; FrameWnd 3 1024; FrameData 5 [x69];
                   FrameData 3 [x6a]])
      client_with_streams
    = Ret Reading
          (set_delivered
             (delivered client_with_streams ++
              ((fun f => (GetStreamid f, f)) <$>
                 [FrameData 5 [x68]; FrameWnd 3 1024; FrameData 5 [x69];
                  FrameData 3 [x6a]]))
             client_with_streams).
Proof.
  apply (Run_delivers_in_order sample_world).
  - reflexivity.
  - repeat (apply List.Forall_cons;
            [split; [reflexivity|]; eexists; split; [reflexivity|];
             split; [discriminate | intros s; reflexivity] |]).
    apply List.Forall_nil.
Defined.

(** X11: a PING or a SPAM frame has no effect on the read loop: [Run] on
    an input with such a frame in it does exactly what it does on the
    input without it. *)
Theorem Run_skips_ping_and_spam W p pre post s :
  is_ignored_frame p = true ->
  Run W (pre ++ ReadOk p :: post) s = Run W (pre ++ post) s.
Proof.
  intros Hp.
  assert (Hloop : forall s', Run_loop W (pre ++ ReadOk p :: post) s'
                             = Run_loop W (pre ++ post) s').
  { induction pre as [|r pre IH]; intros s'.
    - simpl. destruct p; try discriminate Hp; reflexivity.
    - destruct r as [f| |e]; simpl; try reflexivity.
      unfold bind. destruct (dispatch W f s') as [[e|] s1| |s1|];
        try reflexivity.
      apply IH. }
  unfold Run. rewrite Hloop. reflexivity.
Qed.

Lemma Run_skips_ping_and_spam_witness :
  Run sample_world
      ([ReadOk (FrameData 5 [x68])] ++ ReadOk (FrameSpam 0 [x00; x00])
         :: [ReadOk (FrameFin 5); ReadEOF]) client_with_streams
  = Run sample_world
        ([ReadOk (FrameData 5 [x68])] ++ [ReadOk (FrameFin 5); ReadEOF])
        client_with_streams.
Proof.
  apply (Run_skips_ping_and_spam sample_world (FrameSpam 0 [x00; x00])).
  reflexivity.
Defined.

(** X12: an error of the port that takes a frame ends the session.
    When the [SendFrame] of the stream (or channel) behind the streamid
    returns an error, leaving the lock free and no nil FrameSender in the
    table, [Run] returns without reading on: the deferred [Close] runs
    on the session that the port left, the carrier is closed, and the
    table is as the port left it. *)
Theorem port_error_ends_session W f fs e s1 rest s :
  is_stream_frame f = true -> plock s = Unlocked ->
  ports s !! GetStreamid f = Some fs -> fs <> FNil ->
  fs_SendFrame W fs f (set_delivered (delivered s ++ [(GetStreamid f, f)]) s)
    = Ret (Some e) s1 ->
  plock s1 = Unlocked -> no_nil_port (ports s1) ->
  exists s',
    Run W (ReadOk f :: rest) s = Ret Returned s' /\
    conn_closed (conn s') = true /\
    ports s' = ports s1 /\ delivered s' = delivered s1.
Proof.
  intros Hf Hl Hp Hnil He Hl1 Hnn.
  assert (Hd : dispatch W f s = Ret (Some e) s1).
  { rewrite dispatch_stream_frame by exact Hf.
    rewrite (sendFrameInChan_present W f fs) by assumption. exact He. }
  rewrite (Run_stops_on_error W f rest s e s1 Hd).
  destruct (Close_outcome W s1 Hl1)
    as [(err & s' & Hc & H1 & H2 & _ & _ & H5 & _)
       |(s' & _ & _ & _ & _ & _ & _ & _ & Hnil' & _)];
    [|contradiction].
  exists s'. unfold bind. rewrite Hc. split; [reflexivity|].
  split; [exact H1|]. split; [exact H2 | exact H5].
Qed.

Lemma port_error_ends_session_witness :
  exists s',
    Run world_with_failing_ports
        [ReadOk (FrameData 5 [x68]); ReadOk (FrameData 5 [x69])]
        client_with_streams = Ret Returned s' /\
    conn_closed (conn s') = true /\
    ports s' = ports client_with_streams /\
    delivered s' = [(5, FrameData 5 [x68])].
Proof.
  apply (port_error_ends_session world_with_failing_ports (FrameData 5 [x68])
           (FConn (a_stream 5)) (ErrOther 7)
           (set_delivered [(5, FrameData 5 [x68])] client_with_streams)
           [ReadOk (FrameData 5 [x69])] client_with_streams);
    try reflexivity.
  - discriminate.
  - intros k. vm_compute. destruct k as [|k|k]; try discriminate;
      repeat (destruct k as [k|k|]; try discriminate).
Defined.

(** X13: a SYN for a free streamid: [on_syn] stores a new stream in state
    SYN_RECV, with the network and address of the SYN, under the id the
    peer chose, starts the dial of the target and returns no error; it
    writes nothing to the carrier and leaves the lock free.  A stream
    frame for this id that comes next is handed to the new stream: the
    dispatch is the [SendFrame] of that stream. *)
Theorem on_syn_installs_stream W i n a s :
  plock s = Unlocked -> ports s !! i = None ->
  let c := mkConn i n a ST_SYN_RECV in
  exists s',
    on_syn W i n a s = Ret None s' /\
    ports s' = <[i := FConn c]> (ports s) /\
    spawned s' = spawned s ++ [TDial c] /\
    conn s' = conn s /\ plock s' = Unlocked /\
    (forall f, GetStreamid f = i ->
       sendFrameInChan W f s'
         = fs_SendFrame W (FConn c) f
             (set_delivered (delivered s' ++ [(i, f)]) s')).
Proof.
  intros Hl Hi c. unfold on_syn. simpl.
  unfold bind at 1. rewrite PutIntoId_cases, Hi by assumption.
  run_go. eexists. split; [reflexivity|]. simpl.
  do 3 (split; [reflexivity|]). split; [exact Hl|].
  intros f Hf. rewrite (sendFrameInChan_present W f (FConn c));
    [rewrite Hf; reflexivity | exact Hl
    | simpl; rewrite Hf; apply lookup_insert_eq | discriminate].
Qed.

Lemma on_syn_installs_stream_witness :
  let c := mkConn 4 "tcp" "example.test:22" ST_SYN_RECV in
  exists s',
    on_syn sample_world 4 "tcp" "example.test:22" client_with_streams
      = Ret None s' /\
    ports s' = <[4 := FConn c]> (ports client_with_streams) /\
    spawned s' = spawned client_with_streams ++ [TDial c] /\
    conn s' = conn client_with_streams /\ plock s' = Unlocked /\
    (forall f, GetStreamid f = 4 ->
       sendFrameInChan sample_world f s'
         = fs_SendFrame sample_world (FConn c) f
             (set_delivered (delivered s' ++ [(4, f)]) s')).
Proof.
  apply (on_syn_installs_stream sample_world 4 "tcp" "example.test:22"
           client_with_streams); reflexivity.
Defined.

(** ** DNS queries in the read loop *)

Lemma SendFrame_ready W f pb s :
  Packed W f = Some pb -> carrier_ready s ->
  SendFrame W f s = Ret None (after_write pb s).
Proof.
  intros Hp [Hopen Hscript]. unfold SendFrame, Conn_Write, after_write.
  rewrite Hp. unfold bind. rewrite Hopen.
  destruct Hscript as [->|[rest ->]]; cbv beta iota;
    (case_decide; [reflexivity | contradiction]).
Qed.

Lemma on_dns_query W i d req s :
  Unpack W d = Some req -> is_query req ->
  on_dns W i d s =
    match DefaultLookuper W with
    | None => Ret (Some ErrNoDnsServer) s
    | Some Exchange =>
        match Exchange req with
        | None => Ret None s
        | Some res =>
            match Pack W res with
            | None => Ret None s
            | Some b => SendFrame W (NewFrameDns i b) s
            end
        end
    end.
Proof.
  intros Hu [Hr Hq]. unfold on_dns. rewrite Hu, Hr.
  destruct (Questions req) as [|q qs]; [contradiction|].
  destruct (DefaultLookuper W) as [ex|]; [|reflexivity].
  destruct (ex req) as [res|]; [|reflexivity].
  destruct (Pack W res); reflexivity.
Qed.

(** X14: a DNS query that the resolver answers: [on_dns] writes one
    frame to the carrier, the DNS frame with the streamid of the query
    and the packed answer of the resolver, and returns no error; the
    port table and its lock play no part. *)
Theorem on_dns_answers_query W i d req ex res b pb s :
  Unpack W d = Some req -> is_query req ->
  DefaultLookuper W = Some ex -> ex req = Some res ->
  Pack W res = Some b -> Packed W (FrameDns i b) = Some pb ->
  carrier_ready s ->
  on_dns W i d s = Ret None (after_write pb s) /\
  sent (conn (after_write pb s)) = sent (conn s) ++ [pb] /\
  ports (after_write pb s) = ports s /\ plock (after_write pb s) = plock s.
Proof.
  intros Hu Hq Hl Hex Hp Hpb Hc.
  rewrite (on_dns_query W i d req) by assumption. rewrite Hl, Hex, Hp.
  split; [apply SendFrame_ready; assumption|]. repeat split.
Qed.

Lemma on_dns_answers_query_witness :
  on_dns sample_world 4 [x07; x00] client_with_streams
    = Ret None (after_write [x07; x00; x02; x00; x04; x07; x01]
                            client_with_streams) /\
  sent (conn (after_write [x07; x00; x02; x00; x04; x07; x01]
                          client_with_streams))
    = sent (conn client_with_streams) ++ [[x07; x00; x02; x00; x04; x07; x01]] /\
  ports (after_write [x07; x00; x02; x00; x04; x07; x01] client_with_streams)
    = ports client_with_streams /\
  plock (after_write [x07; x00; x02; x00; x04; x07; x01] client_with_streams)
    = plock client_with_streams.
Proof.
  apply (on_dns_answers_query sample_world 4 [x07; x00]
           (mkMsg 7 false true [mkQuestion "example.test." TypeA] [])
           sample_Exchange
           (mkMsg 7 true true [mkQuestion "example.test." TypeA] sample_answer)
           [x07; x01]).
  - reflexivity.
  - split; [reflexivity | discriminate].
  - reflexivity.
  - reflexivity.
  - reflexivity.
  - reflexivity.
  - split; [reflexivity | left; reflexivity].
Defined.

(** X15: a DNS query that the resolver fails to answer, or whose answer
    does not pack, is dropped without a trace: [on_dns] returns no error
    and leaves the session as it is, nothing is written to the carrier,
    and [Run] goes on with the next frame. *)
Theorem on_dns_drops_failed_query W i d req ex rest s :
  Unpack W d = Some req -> is_query req ->
  DefaultLookuper W = Some ex ->
  (ex req = None \/ exists res, ex req = Some res /\ Pack W res = None) ->
  on_dns W i d s = Ret None s /\
  Run W (ReadOk (FrameDns i d) :: rest) s = Run W rest s.
Proof.
  intros Hu Hq Hl Hfail.
  assert (Hd : on_dns W i d s = Ret None s).
  { rewrite (on_dns_query W i d req) by assumption. rewrite Hl.
    destruct Hfail as [->|(res & -> & ->)]; reflexivity. }
  split; [exact Hd|]. apply Run_goes_on. exact Hd.
Qed.

Lemma on_dns_drops_failed_query_witness :
  on_dns world_with_failing_resolver 4 [x07; x00] client_with_streams
    = Ret None client_with_streams /\
  Run world_with_failing_resolver
      (ReadOk (FrameDns 4 [x07; x00]) :: [ReadOk (FrameData 5 [x68])])
      client_with_streams
    = Run world_with_failing_resolver [ReadOk (FrameData 5 [x68])]
          client_with_streams.
Proof.
  apply (on_dns_drops_failed_query world_with_failing_resolver 4 [x07; x00]
           (mkMsg 7 false true [mkQuestion "example.test." TypeA] [])
           (fun _ => None)).
  - reflexivity.
  - split; [reflexivity | discriminate].
  - reflexivity.
  - left. reflexivity.
Defined.

(** X16: without a resolver (DefaultLookuper is not a DnsLookup) a DNS
    query is not dropped: [on_dns] returns ErrNoDnsServer, on which [Run]
    returns and the session is closed (the lock free and no port nil, so
    that [Close] returns).  Nothing is written to the carrier. *)
Theorem query_without_resolver_ends_session W i d req rest s :
  Unpack W d = Some req -> is_query req -> DefaultLookuper W = None ->
  plock s = Unlocked -> no_nil_port (ports s) ->
  on_dns W i d s = Ret (Some ErrNoDnsServer) s /\
  exists s',
    Run W (ReadOk (FrameDns i d) :: rest) s = Ret Returned s' /\
    conn_closed (conn s') = true /\ sent (conn s') = sent (conn s).
Proof.
  intros Hu Hq Hl Hlock Hnn.
  assert (Hd : on_dns W i d s = Ret (Some ErrNoDnsServer) s).
  { rewrite (on_dns_query W i d req) by assumption. rewrite Hl. reflexivity. }
  split; [exact Hd|].
  rewrite (Run_stops_on_error W (FrameDns i d) rest s ErrNoDnsServer s Hd).
  destruct (Close_outcome W s Hlock)
    as [(err & s' & Hc & H1 & _ & _ & _ & _ & H6 & _)
       |(s' & _ & _ & _ & _ & _ & _ & _ & Hnil & _)];
    [|contradiction].
  exists s'. unfold bind. rewrite Hc. split; [reflexivity|].
  split; [exact H1 | exact H6].
Qed.

Lemma query_without_resolver_ends_session_witness :
  on_dns world_without_resolver 4 [x07; x00] client_with_streams
    = Ret (Some ErrNoDnsServer) client_with_streams /\
  exists s',
    Run world_without_resolver
        (ReadOk (FrameDns 4 [x07; x00]) :: [ReadOk (FramePing 0)])
        client_with_streams = Ret Returned s' /\
    conn_closed (conn s') = true /\
    sent (conn s') = sent (conn client_with_streams).
Proof.
  apply (query_without_resolver_ends_session world_without_resolver 4
           [x07; x00]
           (mkMsg 7 false true [mkQuestion "example.test." TypeA] [])).
  - reflexivity.
  - split; [reflexivity | discriminate].
  - reflexivity.
  - reflexivity.
  - intros k. vm_compute. destruct k as [|k|k]; try discriminate;
      repeat (destruct k as [k|k|]; try discriminate).
Defined.

(** X17: a DNS query that carries no question makes [on_dns] panic, at
    the index [req.Question[0]] of its log line, before the resolver is
    asked and with the session untouched.  With the lock free the panic
    leaves [Run] after the deferred [Close] has closed the carrier; with
    the lock held (and the speed counters closing) the deferred [Close]
    waits for ever and the panic does not get out of [Run]. *)
Theorem query_without_question_panics W i d req rest s :
  Unpack W d = Some req -> Response req = false -> Questions req = [] ->
  on_dns W i d s = Crash s /\
  (plock s = Unlocked ->
     exists s', Run W (ReadOk (FrameDns i d) :: rest) s = Crash s' /\
                conn_closed (conn s') = true /\ ports s' = ports s) /\
  (plock s = WLocked ->
     Readcnt_Close W = None -> Writecnt_Close W = None ->
     Run W (ReadOk (FrameDns i d) :: rest) s = Block).
Proof.
  intros Hu Hr Hq.
  assert (Hd : on_dns W i d s = Crash s).
  { unfold on_dns. rewrite Hu, Hr, Hq. reflexivity. }
  assert (HR : Run W (ReadOk (FrameDns i d) :: rest) s
               = bind (Close W) (fun _ => panic) s).
  { unfold Run. simpl Run_loop. unfold bind at 1.
    change (dispatch W (FrameDns i d) s) with (on_dns W i d s).
    rewrite Hd. reflexivity. }
  split; [exact Hd|]. split.
  - intros Hl. rewrite HR. unfold bind.
    destruct (Close_outcome W s Hl)
      as [(err & s' & -> & H1 & H2 & _)|(s' & -> & H1 & H2 & _)];
      exists s'; (split; [reflexivity|]); split; assumption.
  - intros Hl Hcr Hcw. rewrite HR. apply bind_Block.
    apply (held_lock_blocks W s Hl); assumption.
Qed.

Lemma query_without_question_panics_witness :
  exists s',
    Run world_with_bare_queries
        (ReadOk (FrameDns 4 [x07; x00]) :: [ReadOk (FramePing 0)])
        client_with_streams = Crash s' /\
    conn_closed (conn s') = true /\ ports s' = ports client_with_streams.
Proof.
  apply (query_without_question_panics world_with_bare_queries 4 [x07; x00]
           (mkMsg 7 false true [] [])); reflexivity.
Defined.

(** ** Lookups over the tunnel *)

Lemma ParseDnsFrame_answer W f req res :
  answers W f req res -> Questions req <> [] ->
  ParseDnsFrame W f req = Some (address_records (Answer res), None).
Proof.
  intros (i & d & -> & Hu & Hr & Hid) Hq. simpl. rewrite Hu, Hr.
  rewrite (proj2 (Z.eqb_eq _ _) Hid). simpl.
  rewrite bool_decide_eq_false_2 by assumption. rewrite andb_false_r.
  rewrite collect_addrs_records. reflexivity.
Qed.

Lemma ParseDnsFrame_no_answer W f req :
  (~ exists res, answers W f req res) ->
  ParseDnsFrame W f req = Some ([], Some ErrDnsMsgIllegal).
Proof.
  intros H. destruct f; simpl; try reflexivity.
  destruct (Unpack W Data) as [res|] eqn:Hu; [|reflexivity].
  destruct (Response res) eqn:Hr; simpl; [|reflexivity].
  destruct (Id res =? Id req) eqn:Hid; simpl; [|reflexivity].
  exfalso. apply H. exists res, Streamid, Data.
  apply Z.eqb_eq in Hid. auto.
Qed.

(** A lookup whose request goes out: what it returns and how it leaves
    the session. *)
Lemma LookupIP_exchange W host recv s id b pb r :
  ParseIP W host = None -> plock s = Unlocked ->
  PutIntoNextId (CreateChanFrameSender 0) s
    = Ret (id, None)
          (set_ports (<[id := CreateChanFrameSender 0]> (ports s))
                     (set_next_id (u16 (id + 2)) s)) ->
  ports s !! id = None ->
  Pack W (lookup_request W host TypeA) = Some b ->
  Packed W (FrameDns id b) = Some pb -> carrier_ready s ->
  match recv with
  | inr e => Some ([], Some e)
  | inl fres => ParseDnsFrame W fres (lookup_request W host TypeA)
  end = Some r ->
  LookupIP W host recv s
    = Ret r (after_write pb (set_next_id (u16 (id + 2)) s)).
Proof.
  intros Hparse Hl Hput Hfree Hpack Hpb Hready Hr.
  unfold LookupIP. rewrite Hparse. unfold bind at 1. rewrite Hput.
  cbv beta iota. unfold MakeDnsFrame.
  unfold lookup_request in Hpack, Hr. rewrite Hpack.
  set (s1 := set_ports _ _).
  unfold bind at 1 2.
  rewrite (SendFrame_ready W (NewFrameDns id b) pb s1) by assumption.
  assert (Hdone : forall res : list IP * option error,
    bind (RemovePort id) (fun _ => ret res) (after_write pb s1)
      = Ret res (after_write pb (set_next_id (u16 (id + 2)) s))).
  { intros res. rewrite RemovePort_deferred.
    - f_equal. destruct s as [c cl l n p d t]. unfold after_write. simpl.
      rewrite delete_insert_id by exact Hfree. reflexivity.
    - exact Hl.
    - simpl. rewrite lookup_insert_eq. eauto. }
  destruct recv as [fres|e].
  - unfold ret at 1. rewrite Hr. apply Hdone.
  - injection Hr as <-. apply Hdone.
Qed.

(** X18: a lookup that is answered.  The host is no literal address, the
    lock is free, an id is left, the request packs and the carrier takes
    it; the frame that comes back unpacks to a response with the id of
    the request.  [LookupIP] then returns the A and AAAA addresses of
    that response, in order, and no error; it has written one frame, the
    request, and the port table is as before. *)
Theorem LookupIP_returns_answer W host fid d res b s :
  ParseIP W host = None ->
  plock s = Unlocked -> is_u16 (next_id s) -> ~ all_taken (ports s) ->
  Pack W (lookup_request W host TypeA) = Some b ->
  (forall id, is_Some (Packed W (FrameDns id b))) -> carrier_ready s ->
  Unpack W d = Some res -> Response res = true -> Id res = dns_Id W ->
  exists id pb s',
    Packed W (FrameDns id b) = Some pb /\
    LookupIP W host (inl (FrameDns fid d)) s
      = Ret (address_records (Answer res), None) s' /\
    sent (conn s') = sent (conn s) ++ [pb] /\
    ports s' = ports s /\ plock s' = Unlocked.
Proof.
  intros Hparse Hl Hn Hleft Hpack Hpacked Hready Hu Hr Hid.
  destruct (PutIntoNextId_cases (CreateChanFrameSender 0) s Hl Hn)
    as [[Hall _]|(id & _ & Hfree & _ & Hput)]; [contradiction|].
  destruct (Hpacked id) as [pb Hpb].
  exists id, pb. eexists. split; [exact Hpb|].
  split.
  - eapply LookupIP_exchange; try eassumption.
    apply ParseDnsFrame_answer; [|discriminate].
    exists fid, d. auto.
  - split; [reflexivity | split; [reflexivity | exact Hl]].
Qed.

Lemma LookupIP_returns_answer_witness :
  exists id pb s',
    Packed sample_world (FrameDns id [x2a; x00]) = Some pb /\
    LookupIP sample_world "example.test" (inl (FrameDns 5 [x2a; x01]))
             client_with_stream_1
      = Ret (address_records
               (Answer (mkMsg 42 true true
                              [mkQuestion "example.test." TypeA] sample_answer)),
             None) s' /\
    sent (conn s') = sent (conn client_with_stream_1) ++ [pb] /\
    ports s' = ports client_with_stream_1 /\ plock s' = Unlocked.
Proof.
  apply (LookupIP_returns_answer sample_world "example.test" 5 [x2a; x01]
           (mkMsg 42 true true [mkQuestion "example.test." TypeA] sample_answer)
           [x2a; x00] client_with_stream_1).
  - reflexivity.
  - reflexivity.
  - unfold is_u16, U16. simpl. lia.
  - intros H. destruct (H 0) as [x Hx]; [unfold is_u16, U16; lia|].
    vm_compute in Hx. discriminate Hx.
  - reflexivity.
  - intros id. eexists. reflexivity.
  - split; [reflexivity | left; reflexivity].
  - reflexivity.
  - reflexivity.
  - reflexivity.
Defined.

(** X19: a lookup that gets no answer.  With the request sent as in X18:
    when [RecvWithTimeout] returns an error (the timeout), [LookupIP]
    returns that error; when the frame that comes back is not a DNS
    response with the id of the request, it returns DnsMsgIllegal.  In
    both cases it returns no address, and the port table is as before. *)
Theorem LookupIP_fails_without_answer W host recv b s :
  ParseIP W host = None ->
  plock s = Unlocked -> is_u16 (next_id s) -> ~ all_taken (ports s) ->
  Pack W (lookup_request W host TypeA) = Some b ->
  (forall id, is_Some (Packed W (FrameDns id b))) -> carrier_ready s ->
  match recv with
  | inr _ => True
  | inl f => ~ exists res, answers W f (lookup_request W host TypeA) res
  end ->
  exists s',
    LookupIP W host recv s
      = Ret ([], Some match recv with
                      | inr e => e
                      | inl _ => ErrDnsMsgIllegal
                      end) s' /\
    ports s' = ports s /\ plock s' = Unlocked.
Proof.
  intros Hparse Hl Hn Hleft Hpack Hpacked Hready Hrecv.
  destruct (PutIntoNextId_cases (CreateChanFrameSender 0) s Hl Hn)
    as [[Hall _]|(id & _ & Hfree & _ & Hput)]; [contradiction|].
  destruct (Hpacked id) as [pb Hpb].
  eexists. split.
  - eapply LookupIP_exchange; try eassumption.
    destruct recv as [f|e]; [|reflexivity].
    apply ParseDnsFrame_no_answer, Hrecv.
  - split; [reflexivity | exact Hl].
Qed.

Lemma LookupIP_fails_without_answer_witness :
  exists s',
    LookupIP sample_world "example.test" (inl (FrameDns 2 [x2b; x01]))
             client_with_stream_1
      = Ret ([], Some ErrDnsMsgIllegal) s' /\
    ports s' = ports client_with_stream_1 /\ plock s' = Unlocked.
Proof.
  apply (LookupIP_fails_without_answer sample_world "example.test"
           (inl (FrameDns 2 [x2b; x01])) [x2a; x00] client_with_stream_1).
  - reflexivity.
  - reflexivity.
  - unfold is_u16, U16. simpl. lia.
  - intros H. destruct (H 0) as [x Hx]; [unfold is_u16, U16; lia|].
    vm_compute in Hx. discriminate Hx.
  - reflexivity.
  - intros id. eexists. reflexivity.
  - split; [reflexivity | left; reflexivity].
  - intros (res & i & d & Hf & Hu & _ & Hid). injection Hf as <- <-.
    vm_compute in Hu. injection Hu as <-. vm_compute in Hid. discriminate Hid.
Defined.

(** X20: a lookup when every id is taken: [LookupIP] returns the error
    of [PutIntoNextId] and no address; it has sent nothing and the port
    table is unchanged, but the lock of the table is left held. *)
Theorem LookupIP_out_of_ids W host recv s :
  ParseIP W host = None ->
  plock s = Unlocked -> is_u16 (next_id s) -> all_taken (ports s) ->
  LookupIP W host recv s
    = Ret ([], Some ErrRunOutOfStreamId) (set_plock WLocked s).
Proof.
  intros Hparse Hl Hn Hall.
  destruct (PutIntoNextId_cases (CreateChanFrameSender 0) s Hl Hn)
    as [[_ Hput]|(id & Hid & Hfree & _)].
  - unfold LookupIP. rewrite Hparse. unfold bind. rewrite Hput. reflexivity.
  - destruct (Hall id Hid) as [x Hx]. congruence.
Qed.

Lemma full_table_all_taken : all_taken full_table.
Proof.
  intros i Hi. exists (FChan 0). unfold full_table.
  apply elem_of_list_to_map.
  - assert (Hfst : forall l : list Z,
              ((fun i => (i, FChan 0)) <$> l).*1 = l).
    { induction l as [|z l IH]; [reflexivity|].
      rewrite !fmap_cons, IH. reflexivity. }
    rewrite Hfst. apply NoDup_seqZ.
  - apply list_elem_of_fmap. exists i. split; [reflexivity|].
    apply elem_of_seqZ. unfold is_u16 in Hi. lia.
Qed.

Lemma LookupIP_out_of_ids_witness :
  LookupIP sample_world "example.test" (inr ErrTimeout) full_session
    = Ret ([], Some ErrRunOutOfStreamId) (set_plock WLocked full_session).
Proof.
  apply (LookupIP_out_of_ids sample_world "example.test" (inr ErrTimeout)
           full_session).
  - reflexivity.
  - reflexivity.
  - unfold is_u16, U16. simpl. lia.
  - exact full_table_all_taken.
Defined.

(** ** Dial *)

Lemma keyed_insert id c (p : gmap Z FrameSender) :
  streamid c = id -> keyed p -> keyed (<[id := FConn c]> p).
Proof.
  intros Hc Hk k c'. rewrite lookup_insert. case_decide as Hkey.
  - intros H. injection H as <-. rewrite Hc. exact Hkey.
  - apply Hk.
Qed.

(** X21: [Dial] stores the new stream under the first free id and gives
    it this id as its streamid before [SendSynAndWait] runs: the session
    that [SendSynAndWait] starts from holds the stream, in state UNKNOWN,
    under its own streamid, and every stream of the table sits under its
    own streamid if that was so before.  [Dial] returns this stream with
    the error of [SendSynAndWait].  When every id is taken [Dial] returns
    the error of [PutIntoNextId] and [SendSynAndWait] does not run. *)
Theorem Dial_registers_stream SendSynAndWait n a s :
  plock s = Unlocked -> is_u16 (next_id s) ->
  (all_taken (ports s) ->
     Dial SendSynAndWait n a s
       = Ret (NewConn 0 n a, Some ErrRunOutOfStreamId) (set_plock WLocked s)) /\
  (~ all_taken (ports s) ->
     exists id,
       let c := mkConn id n a ST_UNKNOWN in
       let s1 := set_ports (<[id := FConn c]> (ports s))
                           (set_next_id (u16 (id + 2)) s) in
       ports s !! id = None /\
       Dial SendSynAndWait n a s
         = bind (SendSynAndWait c) (fun err => ret (c, err)) s1 /\
       (keyed (ports s) -> keyed (ports s1))).
Proof.
  intros Hl Hn.
  destruct (PutIntoNextId_cases (FConn (NewConn 0 n a)) s Hl Hn)
    as [[Hall Hput]|(id & _ & Hfree & Hleft & Hput)].
  - split; [|intros H; contradiction]. intros _.
    unfold Dial, bind. rewrite Hput. reflexivity.
  - split; [intros H; contradiction|]. intros _.
    exists id. cbv zeta. split; [exact Hfree|]. split.
    + unfold Dial. unfold bind at 1. rewrite Hput. cbv beta iota.
      unfold bind at 1. unfold modify. simpl network. simpl address.
      simpl status. simpl ports. rewrite insert_insert_eq.
      rewrite set_ports_twice.
      unfold bind. destruct (SendSynAndWait _ _) as [[e|] s2| | |];
        reflexivity.
    + simpl. apply keyed_insert. reflexivity.
Qed.

Lemma Dial_registers_stream_witness :
  exists id,
    let c := mkConn id "tcp" "example.test:80" ST_UNKNOWN in
    let s1 := set_ports (<[id := FConn c]> (ports client_with_streams))
                        (set_next_id (u16 (id + 2)) client_with_streams) in
    ports client_with_streams !! id = None /\
    Dial sample_SendSyn "tcp" "example.test:80" client_with_streams
      = bind (sample_SendSyn c) (fun err => ret (c, err)) s1 /\
    (keyed (ports client_with_streams) -> keyed (ports s1)).
Proof.
  apply (Dial_registers_stream sample_SendSyn "tcp" "example.test:80"
           client_with_streams).
  - reflexivity.
  - unfold is_u16, U16. simpl. lia.
  - intros H. destruct (H 0) as [x Hx]; [unfold is_u16, U16; lia|].
    vm_compute in Hx. discriminate Hx.
Defined.

(** ** The DNS tunnel from end to end *)

(** X22: a lookup across the tunnel.  The client's [LookupIP] sends its
    request on the id it was handed; the server's [on_dns], given the
    payload of that frame, asks the resolver and writes one DNS frame
    with the same id and the packed answer; this frame, handed to the
    waiting lookup, makes [LookupIP] return the A and AAAA addresses of
    the resolver's answer.  The codec gives back the request and the
    answer it packed, the resolver answers with a response that keeps the
    id of the request, and both carriers take their frame. *)
Theorem dns_tunnel_end_to_end W host ex res b b' sc ss :
  let req := lookup_request W host TypeA in
  ParseIP W host = None ->
  plock sc = Unlocked -> is_u16 (next_id sc) -> ~ all_taken (ports sc) ->
  carrier_ready sc -> carrier_ready ss ->
  (forall f, is_Some (Packed W f)) ->
  Pack W req = Some b -> Unpack W b = Some req ->
  DefaultLookuper W = Some ex -> ex req = Some res ->
  Response res = true -> Id res = Id req ->
  Pack W res = Some b' -> Unpack W b' = Some res ->
  exists id pb pb' sc',
    Packed W (FrameDns id b) = Some pb /\
    Packed W (FrameDns id b') = Some pb' /\
    on_dns W id b ss = Ret None (after_write pb' ss) /\
    LookupIP W host (inl (FrameDns id b')) sc
      = Ret (address_records (Answer res), None) sc' /\
    sent (conn sc') = sent (conn sc) ++ [pb] /\
    ports sc' = ports sc.
Proof.
  intros req Hparse Hl Hn Hleft Hrc Hrs Hpacked Hpack Hunpack Hlook Hex
         Hresp Hid Hpack' Hunpack'.
  destruct (PutIntoNextId_cases (CreateChanFrameSender 0) sc Hl Hn)
    as [[Hall _]|(id & _ & Hfree & _ & Hput)]; [contradiction|].
  destruct (Hpacked (FrameDns id b)) as [pb Hpb].
  destruct (Hpacked (FrameDns id b')) as [pb' Hpb'].
  exists id, pb, pb'. eexists.
  split; [exact Hpb|]. split; [exact Hpb'|]. split; [|split].
  - rewrite (on_dns_query W id b req);
      [| exact Hunpack | split; [reflexivity | discriminate]].
    rewrite Hlook, Hex, Hpack'. apply SendFrame_ready; assumption.
  - eapply LookupIP_exchange; try eassumption.
    apply ParseDnsFrame_answer; [|discriminate].
    exists id, b'. auto.
  - split; reflexivity.
Qed.

Lemma dns_tunnel_end_to_end_witness :
  exists id pb pb' sc',
    Packed sample_world (FrameDns id [x2a; x00]) = Some pb /\
    Packed sample_world (FrameDns id [x2a; x01]) = Some pb' /\
    on_dns sample_world id [x2a; x00] client_with_stream_7
      = Ret None (after_write pb' client_with_stream_7) /\
    LookupIP sample_world "example.test" (inl (FrameDns id [x2a; x01]))
             client_with_stream_1
      = Ret (address_records
               (Answer (mkMsg 42 true true
                              [mkQuestion "example.test." TypeA] sample_answer)),
             None) sc' /\
    sent (conn sc') = sent (conn client_with_stream_1) ++ [pb] /\
    ports sc' = ports client_with_stream_1.
Proof.
  apply (dns_tunnel_end_to_end sample_world "example.test" sample_Exchange
           (mkMsg 42 true true [mkQuestion "example.test." TypeA] sample_answer)
           [x2a; x00] [x2a; x01] client_with_stream_1 client_with_stream_7).
  - reflexivity.
  - reflexivity.
  - unfold is_u16, U16. simpl. lia.
  - intros H. destruct (H 0) as [x Hx]; [unfold is_u16, U16; lia|].
    vm_compute in Hx. discriminate Hx.
  - split; [reflexivity | left; reflexivity].
  - split; [reflexivity | left; reflexivity].
  - intros f. destruct f; eexists; reflexivity.
  - reflexivity.
  - reflexivity.
  - reflexivity.
  - reflexivity.
  - reflexivity.
  - reflexivity.
  - reflexivity.
  - reflexivity.
Defined.

(** ** Edge cases of the dispatch and of the carrier *)

(** X23: a nil FrameSender in the table counts as no port for the
    dispatch, and breaks [Close]: a stream frame for its id is handed to
    nobody and [sendFrameInChan] returns StreamNotExist; [Run] leaves its
    loop on it, and the deferred [Close] panics when it comes to start
    [CloseFrame] on the nil FrameSender.  The panic leaves [Run] with the
    carrier closed by the deferred call, the lock free and the closed
    flag as it was (the speed counters closing without error). *)
Theorem nil_port_is_no_port W f rest s :
  is_stream_frame f = true -> plock s = Unlocked ->
  ports s !! GetStreamid f = Some FNil ->
  Readcnt_Close W = None -> Writecnt_Close W = None ->
  sendFrameInChan W f s = Ret (Some ErrStreamNotExist) s /\
  exists s',
    Run W (ReadOk f :: rest) s = Crash s' /\
    delivered s' = delivered s /\ conn_closed (conn s') = true /\
    closed s' = closed s /\ plock s' = Unlocked.
Proof.
  intros Hf Hl Hp Hr Hw.
  assert (Hs : sendFrameInChan W f s = Ret (Some ErrStreamNotExist) s).
  { destruct s as [c cl l n p d t]. simpl in *. subst l.
    unfold sendFrameInChan. run_go. rewrite Hp. reflexivity. }
  split; [exact Hs|].
  assert (Hd : dispatch W f s = Ret (Some ErrStreamNotExist) s).
  { rewrite dispatch_stream_frame by exact Hf. exact Hs. }
  rewrite (Run_stops_on_error W f rest s _ s Hd).
  destruct (Close_outcome W s Hl)
    as [(err & s' & _ & _ & _ & _ & _ & _ & _ & H7)
       |(s' & Hc & H1 & _ & H3 & H4 & H5 & _)].
  - destruct (H7 Hr Hw) as (Hnn & _). exfalso. exact (Hnn _ Hp).
  - exists s'. unfold bind. rewrite Hc. split; [reflexivity|]. auto.
Qed.

Lemma nil_port_is_no_port_witness :
  sendFrameInChan sample_world (FrameData 6 [x68]) client_with_nil_port
    = Ret (Some ErrStreamNotExist) client_with_nil_port /\
  exists s',
    Run sample_world (ReadOk (FrameData 6 [x68]) :: [ReadOk (FramePing 0)])
        client_with_nil_port = Crash s' /\
    delivered s' = delivered client_with_nil_port /\
    conn_closed (conn s') = true /\
    closed s' = closed client_with_nil_port /\ plock s' = Unlocked.
Proof.
  apply (nil_port_is_no_port sample_world (FrameData 6 [x68])
           [ReadOk (FramePing 0)] client_with_nil_port); reflexivity.
Defined.

(** X24: [SendFrame] returns no error only when the frame packs and the
    carrier has taken the whole packed frame, which is then the one block
    added to what was written.  When the carrier stops after fewer bytes
    and reports no error, [SendFrame] returns ErrShortWrite, and the
    bytes taken stay written.  In every case it returns, and touches
    nothing of the session but the carrier. *)
Theorem SendFrame_all_or_error W f s :
  (exists err c', SendFrame W f s = Ret err (set_conn c' s)) /\
  (forall s', SendFrame W f s = Ret None s' ->
     exists pb, Packed W f = Some pb /\ sent (conn s') = sent (conn s) ++ [pb]) /\
  (forall pb n rest,
     Packed W f = Some pb -> conn_closed (conn s) = false ->
     wscript (conn s) = WShort n :: rest -> (n < length pb)%nat ->
     exists s', SendFrame W f s = Ret (Some ErrShortWrite) s' /\
                sent (conn s') = sent (conn s) ++ [take n pb]).
Proof.
  split; [apply SendFrame_conn_only|]. split.
  - intros s'. unfold SendFrame, Conn_Write.
    destruct (Packed W f) as [pb|]; [|discriminate].
    unfold bind. destruct (conn_closed (conn s)); [discriminate|].
    destruct (wscript (conn s)) as [|[| |k] rest]; cbv beta iota;
      try discriminate; try case_decide; try discriminate;
      intros Heq; injection Heq as <-; exists pb; simpl;
      (split; [reflexivity|]); try reflexivity.
    (* a write that stops at the length of the block has taken it all *)
    rewrite take_ge by lia. reflexivity.
  - intros pb n rest Hp Hopen Hscript Hn. unfold SendFrame, Conn_Write.
    rewrite Hp. unfold bind. rewrite Hopen, Hscript. cbv beta iota.
    rewrite Nat.min_l by lia.
    case_decide; [lia|]. eexists. split; reflexivity.
Qed.

Lemma SendFrame_all_or_error_witness :
  exists s',
    SendFrame sample_world (FrameFin 5) client_on_slow_carrier
      = Ret (Some ErrShortWrite) s' /\
    sent (conn s') = sent (conn client_on_slow_carrier)
                       ++ [take 3 [x04; x00; x00; x00; x05]].
Proof.
  apply (proj2 (proj2 (SendFrame_all_or_error sample_world (FrameFin 5)
                         client_on_slow_carrier))
           [x04; x00; x00; x00; x05] 3%nat []).
  - reflexivity.
  - reflexivity.
  - reflexivity.
  - simpl. lia.
Defined.

(** ** The lock at the return of a method *)

(** X25: from a session whose lock is free, [PutIntoId], [PutIntoNextId]
    and [RemovePort] return with the lock free exactly when they return
    no error; [GetSize], [GetSortedPorts], [sendFrameInChan] and [Close]
    always return with the lock free.  For [sendFrameInChan] this is so
    whenever the [SendFrame] of the ports leaves the lock as it finds it:
    the lock is free again when the frame is handed over. *)
Theorem lock_free_after_return W s :
  plock s = Unlocked -> is_u16 (next_id s) ->
  (forall id fs err s',
     PutIntoId id fs s = Ret err s' -> (plock s' = Unlocked <-> err = None)) /\
  (forall fs id err s',
     PutIntoNextId fs s = Ret (id, err) s' ->
     (plock s' = Unlocked <-> err = None)) /\
  (forall id err s',
     RemovePort id s = Ret err s' -> (plock s' = Unlocked <-> err = None)) /\
  (forall n s', GetSize s = Ret n s' -> plock s' = Unlocked) /\
  (forall l s', GetSortedPorts s = Ret l s' -> plock s' = Unlocked) /\
  (forall f,
     (forall fs, ports s !! GetStreamid f = Some fs -> fs <> FNil ->
        sendFrameInChan W f s
          = fs_SendFrame W fs f
              (set_delivered (delivered s ++ [(GetStreamid f, f)]) s) /\
        plock (set_delivered (delivered s ++ [(GetStreamid f, f)]) s)
          = Unlocked) /\
     ((forall fs s1 r s2,
         fs_SendFrame W fs f s1 = Ret r s2 -> plock s2 = plock s1) ->
      forall err s',
        sendFrameInChan W f s = Ret err s' -> plock s' = Unlocked)) /\
  (forall err s', Close W s = Ret err s' -> plock s' = Unlocked).
Proof.
  intros Hl Hn. split; [|split; [|split; [|split; [|split; [|split]]]]].
  - intros id fs err s'. rewrite PutIntoId_cases by assumption.
    destruct (ports s !! id); intros H0; injection H0 as <- <-.
    + split; discriminate.
    + split; [reflexivity | intros _; exact Hl].
  - intros fs id err s'.
    destruct (PutIntoNextId_cases fs s Hl Hn) as [[_ ->]|(i & _ & _ & _ & ->)];
      intros H0; injection H0 as <- <- <-.
    + split; discriminate.
    + split; [reflexivity | intros _; exact Hl].
  - intros id err s'. rewrite RemovePort_cases by assumption.
    destruct (ports s !! id); intros H0; injection H0 as <- <-.
    + split; [reflexivity | intros _; exact Hl].
    + split; discriminate.
  - intros n s'. rewrite GetSize_returns by assumption.
    intros H0. injection H0 as <- <-. exact Hl.
  - intros l s'. unfold GetSortedPorts, bind.
    rewrite GetPorts_returns by assumption.
    intros H0. injection H0 as <- <-. exact Hl.
  - intros f. split.
    + intros fs Hp Hnil. split; [|exact Hl].
      apply sendFrameInChan_present; assumption.
    + intros Hport err s'.
      destruct (ports s !! GetStreamid f) as [fs|] eqn:Hp.
      * assert (fs = FNil \/ fs <> FNil) as [->|Hnil]
          by (destruct fs; [right; discriminate.. | left; reflexivity]).
        -- destruct s as [c cl lk n p d t]. simpl in *. subst lk.
           unfold sendFrameInChan. run_go. rewrite Hp.
           intros H0. injection H0 as <- <-. reflexivity.
        -- rewrite (sendFrameInChan_present W f fs) by assumption.
           intros H0. rewrite (Hport _ _ _ _ H0). exact Hl.
      * rewrite sendFrameInChan_missing by assumption.
        intros H0. injection H0 as <- <-. exact Hl.
  - intros err s'.
    destruct (Close_outcome W s Hl)
      as [(e & s1 & -> & _ & _ & Hl1 & _)|(s1 & -> & _)].
    + intros H0. injection H0 as <- <-. exact Hl1.
    + discriminate.
Qed.

Lemma lock_free_after_return_witness :
  plock (set_ports (<[7 := FChan 0]> (ports client_with_streams))
                   client_with_streams) = Unlocked
  <-> @None error = None.
Proof.
  assert (Hn : is_u16 (next_id client_with_streams))
    by (unfold is_u16, U16; simpl; lia).
  apply (proj1 (lock_free_after_return sample_world client_with_streams
                  eq_refl Hn) 7 (FChan 0)).
  reflexivity.
Defined.
